(** * Mock delivery agency API: a shallow embedding of [mock-delivery-api.js]

    The server is a single-threaded event loop over process-wide state: the
    [parcels] Map, the [parcelIdCounter], the armed intervals and the
    webhooks handed to axios.  Each request handler and each interval callback
    runs to completion, so it is modelled as one atomic action of a state
    monad over [World].  Parcels are JavaScript objects: the Map and the
    closures of the simulation timers hold references to them, so the model
    keeps a heap of parcel objects and stores locations.

    What is left out: the delay the simulate handler looks up and the
    [estimated_completion] it reports (a callback is an event here, real time
    is not measured; the exception the lookup can throw is modelled), the
    console output, and what the network does with a webhook request once
    axios has it.  A handler is given the body
    [express.json()] parsed, as a map from property names to values. *)

From Stdlib Require Import ZArith Floats.SpecFloat.
From stdpp Require Import gmap strings list fin_maps pretty.

(** ** JavaScript values *)

(** What [express.json()] can put in [req.body], plus [undefined] for an
    absent property.  Numbers are IEEE-754 doubles. *)
#[warnings="-register-all"]
Inductive Value :=
  | VUndefined
  | VNull
  | VBool (b : bool)
  | VNumber (x : spec_float)
  | VString (s : string)
  | VArray (xs : list Value)
  | VObject (fields : list (string * Value)).

(** The double nearest to an integer. *)
Definition Number (z : Z) : spec_float := binary_normalize 53 1024 z 0 false.

(** ToBoolean: [undefined], [null], [false], [0], [-0], [NaN] and the empty
    string are falsy, every other value (arrays and objects too) is truthy. *)
Definition truthy (v : Value) : bool :=
  match v with
  | VUndefined | VNull => false
  | VBool b => b
  | VNumber (S754_zero _) | VNumber S754_nan => false
  | VNumber _ => true
  | VString s => negb (String.eqb s "")
  | VArray _ | VObject _ => true
  end.

(** [a || b] *)
Definition or_else (a b : Value) : Value := if truthy a then a else b.

(** [body.k] on the parsed request body. *)
Definition field (body : gmap string Value) (k : string) : Value :=
  default VUndefined (body !! k).

(** [xs.includes(v)] on an array of strings: SameValueZero only relates a
    string to an equal string. *)
Definition includes (xs : list string) (v : Value) : bool :=
  match v with
  | VString s => bool_decide (s ∈ xs)
  | _ => false
  end.

(** Whether ToString(v) completes; it is what ToPropertyKey does to the [v]
    of [o[v]].  A primitive always converts.  An object parsed from JSON
    converts through [Object.prototype.toString] unless it has an own
    property "toString": that one is never callable, and [valueOf], own or
    inherited, yields no primitive either, so the conversion throws a
    TypeError.  An array converts through [join], which converts each element
    ([null] and [undefined] give the empty string). *)
Fixpoint converts_to_string (v : Value) : bool :=
  match v with
  | VObject fields => negb (bool_decide ("toString" ∈ fields.*1))
  | VArray xs => forallb converts_to_string xs
  | _ => true
  end.

(** ** Parcel statuses *)

Module STATUSES.
Definition PENDING_PICKUP : string := "pending_pickup".
Definition COLLECTED : string := "collected".
Definition IN_TRANSIT : string := "in_transit".
Definition OUT_FOR_DELIVERY : string := "out_for_delivery".
Definition DELIVERED : string := "delivered".
Definition FAILED_DELIVERY : string := "failed_delivery".
Definition RETURNED : string := "returned".
Definition COMPLETED : string := "completed".
Definition CANCELLED : string := "cancelled".

(** [Object.values(STATUSES)], in property order. *)
Definition values : list string :=
  [PENDING_PICKUP; COLLECTED; IN_TRANSIT; OUT_FOR_DELIVERY; DELIVERED;
   FAILED_DELIVERY; RETURNED; COMPLETED; CANCELLED].
End STATUSES.

(** ** Data model *)

(** One element of [status_history]. *)
Module Entry.
Record t := mk {
  status : string;
  timestamp : string;
  note : Value
}.
End Entry.

Module Parcel.
Record t := mk {
  tracking_number : string;
  order_id : Value;
  customer_name : Value;
  customer_phone : Value;
  customer_address : Value;
  wilaya : Value;
  commune : Value;
  product_list : Value;
  price : Value;
  cod_amount : Value;
  status : string;
  webhook_url : Value;
  created_at : string;
  status_history : list Entry.t;
  delivered_at : option string   (* [None]: the property was never assigned *)
}.

(** [parcel.status = s] *)
Definition set_status (s : string) (p : t) : t :=
  mk (tracking_number p) (order_id p) (customer_name p) (customer_phone p)
     (customer_address p) (wilaya p) (commune p) (product_list p) (price p)
     (cod_amount p) s (webhook_url p) (created_at p) (status_history p)
     (delivered_at p).

(** [parcel.status_history.push(e)] *)
Definition push_history (e : Entry.t) (p : t) : t :=
  mk (tracking_number p) (order_id p) (customer_name p) (customer_phone p)
     (customer_address p) (wilaya p) (commune p) (product_list p) (price p)
     (cod_amount p) (status p) (webhook_url p) (created_at p)
     (status_history p ++ [e]) (delivered_at p).

(** [parcel.delivered_at = ts] *)
Definition set_delivered_at (ts : string) (p : t) : t :=
  mk (tracking_number p) (order_id p) (customer_name p) (customer_phone p)
     (customer_address p) (wilaya p) (commune p) (product_list p) (price p)
     (cod_amount p) (status p) (webhook_url p) (created_at p)
     (status_history p) (Some ts).
End Parcel.

(** A parcel object is named by its position in the heap. *)
Abbreviation loc := nat (only parsing).

(** The closure of one [setInterval] callback of the simulate handler: the
    captured [tracking_number], [parcel] and [statusFlow], and the mutable
    [currentIndex]. *)
Module Timer.
Record t := mk {
  tracking_number : string;
  parcel : loc;
  statusFlow : list string;
  currentIndex : nat
}.
End Timer.

(** One call of [axios.post] made by [sendWebhook]. *)
Module Webhook.
Record data := mk_data {
  tracking_number : string;
  order_id : Value;
  status : string;
  cod_amount : Value;
  delivered_at : option string;   (* [None] is JSON [null] *)
  status_history : list Entry.t
}.
Record t := mk {
  url : Value;
  event : string;
  timestamp : string;
  payload : data
}.
End Webhook.

(** The process state. *)
Record World := mkWorld {
  heap : list Parcel.t;            (* every parcel object allocated so far *)
  parcels : gmap string loc;       (* [const parcels = new Map()] *)
  parcelIdCounter : Z;             (* [let parcelIdCounter = 1000] *)
  timers : gmap nat Timer.t;       (* armed intervals, by handle *)
  next_timer : nat;                (* the handle the next [setInterval] returns *)
  outbox : list Webhook.t;         (* webhook requests issued, oldest first *)
  clock_reads : nat                (* how many times [new Date()] was evaluated *)
}.

Definition initial : World :=
  mkWorld [] ∅ 1000 ∅ 0 [] 0.

(** ** HTTP responses *)

Inductive ResponseBody :=
  | Failure (message : string)
  | Created (message tracking_number status estimated_delivery : string)
  | Found (tracking_number : string) (order_id : Value) (status : string)
          (customer_name customer_address cod_amount : Value)
          (status_history : list Entry.t)
  | Updated (message tracking_number status : string)
  | Listing (count : nat) (data : list Parcel.t)
  | SimulationStarted (message tracking_number : string) (simulation_speed : Value)
  | ServerError.   (* what Express answers when a handler throws *)

Record Response := mkResponse {
  code : Z;
  body : ResponseBody
}.

(** ** The handler monad: state over [World], [None] when the handler would
    dereference a location that holds no object. *)

Definition M (A : Type) : Type := World → option (A * World).

#[global] Instance M_ret : MRet M := λ A a w, Some (a, w).
#[global] Instance M_bind : MBind M := λ A B f m w,
  match m w with
  | Some (a, w') => f a w'
  | None => None
  end.

Definition stuck {A} : M A := λ _, None.

(** Allocation of a parcel object literal. *)
Definition new_object (p : Parcel.t) : M loc := λ w,
  Some (length (heap w),
        mkWorld (heap w ++ [p]) (parcels w) (parcelIdCounter w) (timers w)
                (next_timer w) (outbox w) (clock_reads w)).

(** Reading the properties of the object at [l]. *)
Definition read (l : loc) : M Parcel.t := λ w,
  match heap w !! l with
  | Some p => Some (p, w)
  | None => None
  end.

(** An assignment to a property of the object at [l]. *)
Definition mutate (l : loc) (f : Parcel.t → Parcel.t) : M unit := λ w,
  match heap w !! l with
  | Some p =>
      Some (tt, mkWorld (<[l := f p]> (heap w)) (parcels w) (parcelIdCounter w)
                        (timers w) (next_timer w) (outbox w) (clock_reads w))
  | None => None
  end.

(** [parcels.get(k)] *)
Definition parcels_get (k : string) : M (option loc) := λ w,
  Some (parcels w !! k, w).

(** [parcels.set(k, l)] *)
Definition parcels_set (k : string) (l : loc) : M unit := λ w,
  Some (tt, mkWorld (heap w) (<[k := l]> (parcels w)) (parcelIdCounter w)
                    (timers w) (next_timer w) (outbox w) (clock_reads w)).

(** Doubles count exactly up to 2^53; there [x + 1] rounds back to [x]. *)
Definition MAX_EXACT : Z := 2 ^ 53.

Definition increment (c : Z) : Z :=
  if (c <? MAX_EXACT)%Z then (c + 1)%Z else c.

(** [parcelIdCounter++]: yields the old value. *)
Definition post_increment : M Z := λ w,
  Some (parcelIdCounter w,
        mkWorld (heap w) (parcels w) (increment (parcelIdCounter w)) (timers w)
                (next_timer w) (outbox w) (clock_reads w)).

(** [axios.post(url, payload, ...)]: the request is handed to the network. *)
Definition axios_post (c : Webhook.t) : M unit := λ w,
  Some (tt, mkWorld (heap w) (parcels w) (parcelIdCounter w) (timers w)
                    (next_timer w) (outbox w ++ [c]) (clock_reads w)).

(** [setInterval(callback, delay)]: arms a timer and yields its handle. *)
Definition setInterval (t : Timer.t) : M nat := λ w,
  Some (next_timer w,
        mkWorld (heap w) (parcels w) (parcelIdCounter w)
                (<[next_timer w := t]> (timers w)) (S (next_timer w))
                (outbox w) (clock_reads w)).

(** [clearInterval(interval)] *)
Definition clearInterval (id : nat) : M unit := λ w,
  Some (tt, mkWorld (heap w) (parcels w) (parcelIdCounter w)
                    (delete id (timers w)) (next_timer w) (outbox w)
                    (clock_reads w)).

(** The closure of an armed timer; no callback runs for a handle that is
    not armed. *)
Definition closure (id : nat) : M Timer.t := λ w,
  match timers w !! id with
  | Some t => Some (t, w)
  | None => None
  end.

(** [currentIndex++] inside the callback of timer [id]. *)
Definition increment_currentIndex (id : nat) : M unit := λ w,
  match timers w !! id with
  | Some t =>
      Some (tt, mkWorld (heap w) (parcels w) (parcelIdCounter w)
                        (<[id := Timer.mk (Timer.tracking_number t) (Timer.parcel t)
                                          (Timer.statusFlow t)
                                          (S (Timer.currentIndex t))]> (timers w))
                        (next_timer w) (outbox w) (clock_reads w))
  | None => None
  end.

(** [Array.from(parcels.values())].  A JavaScript Map enumerates in insertion
    order; the order of the listing is not modelled. *)
Definition parcels_values : M (list Parcel.t) := λ w,
  Some (omap (λ kl, heap w !! kl.2) (map_to_list (parcels w)), w).

(** [`${n}`] for an integral number below 10^21: its decimal digits. *)
Definition Number_toString (n : Z) : string := pretty n.

Definition flow_failed : list string :=
  [STATUSES.COLLECTED; STATUSES.IN_TRANSIT; STATUSES.OUT_FOR_DELIVERY;
   STATUSES.FAILED_DELIVERY; STATUSES.RETURNED].

Definition flow_default : list string :=
  [STATUSES.COLLECTED; STATUSES.IN_TRANSIT; STATUSES.OUT_FOR_DELIVERY;
   STATUSES.DELIVERED; STATUSES.COMPLETED].

(** [req.body.scenario === "failed"] *)
Definition is_failed_scenario (v : Value) : bool :=
  match v with
  | VString s => String.eqb s "failed"
  | _ => false
  end.

Section Server.

(** The system clock: [clock n] is the ISO string the [n]-th evaluation of
    [new Date().toISOString()] returns. *)
Variable clock : nat → string.

Definition Date_toISOString : M string := λ w,
  Some (clock (clock_reads w),
        mkWorld (heap w) (parcels w) (parcelIdCounter w) (timers w)
                (next_timer w) (outbox w) (S (clock_reads w))).

(** [sendWebhook(webhookUrl, parcel)] up to its [await]: the payload is
    built from the parcel as it is now and handed to axios.  The logging
    that follows the network's answer touches no server state. *)
Definition sendWebhook (webhookUrl : Value) (parcel : loc) : M unit :=
  ts ← Date_toISOString;
  p ← read parcel;
  axios_post
    (Webhook.mk webhookUrl "parcel.status.updated" ts
       (Webhook.mk_data (Parcel.tracking_number p) (Parcel.order_id p)
          (Parcel.status p) (Parcel.cod_amount p) (Parcel.delivered_at p)
          (Parcel.status_history p))).

(** [POST /api/v1/parcels] *)
Definition createParcel (body : gmap string Value) : M Response :=
  let order_id := field body "order_id" in
  let customer_name := field body "customer_name" in
  let customer_phone := field body "customer_phone" in
  let customer_address := field body "customer_address" in
  let wilaya := field body "wilaya" in
  let commune := field body "commune" in
  let product_list := field body "product_list" in
  let price := field body "price" in
  let webhook_url := field body "webhook_url" in
  if negb (truthy order_id) || negb (truthy customer_name)
     || negb (truthy customer_phone) || negb (truthy customer_address)
     || negb (truthy price)
  then mret (mkResponse 400 (Failure "Missing required fields"))
  else
    c ← post_increment;
    let tracking_number := "YDN" +:+ Number_toString c in
    created ← Date_toISOString;
    ts ← Date_toISOString;
    parcel ← new_object
      (Parcel.mk tracking_number order_id customer_name customer_phone
         customer_address (or_else wilaya (VString "Tlemcen"))
         (or_else commune (VString "Tlemcen"))
         (or_else product_list (VArray [])) price price
         STATUSES.PENDING_PICKUP webhook_url created
         [Entry.mk STATUSES.PENDING_PICKUP ts
            (VString "Parcel created and awaiting pickup")]
         None);
    parcels_set tracking_number parcel;;
    (if truthy webhook_url then sendWebhook webhook_url parcel else mret tt);;
    mret (mkResponse 201
            (Created "Parcel created successfully" tracking_number
               STATUSES.PENDING_PICKUP "2-3 business days")).

(** [GET /api/v1/parcels/:tracking_number] *)
Definition getParcel (tracking_number : string) : M Response :=
  found ← parcels_get tracking_number;
  match found with
  | None => mret (mkResponse 404 (Failure "Parcel not found"))
  | Some parcel =>
      p ← read parcel;
      mret (mkResponse 200
              (Found (Parcel.tracking_number p) (Parcel.order_id p)
                 (Parcel.status p) (Parcel.customer_name p)
                 (Parcel.customer_address p) (Parcel.cod_amount p)
                 (Parcel.status_history p)))
  end.

(** [PUT /api/v1/parcels/:tracking_number/status] *)
Definition updateStatus (tracking_number : string)
    (body : gmap string Value) : M Response :=
  let status := field body "status" in
  let note := field body "note" in
  found ← parcels_get tracking_number;
  match found with
  | None => mret (mkResponse 404 (Failure "Parcel not found"))
  | Some parcel =>
      match status with
      | VString s =>
          if includes STATUSES.values status then
            mutate parcel (Parcel.set_status s);;
            ts ← Date_toISOString;
            mutate parcel
              (Parcel.push_history
                 (Entry.mk s ts
                    (or_else note (VString ("Status updated to " +:+ s)))));;
            (if String.eqb s STATUSES.DELIVERED
             then ts' ← Date_toISOString;
                  mutate parcel (Parcel.set_delivered_at ts')
             else mret tt);;
            parcels_set tracking_number parcel;;
            p ← read parcel;
            (if truthy (Parcel.webhook_url p)
             then sendWebhook (Parcel.webhook_url p) parcel
             else mret tt);;
            mret (mkResponse 200
                    (Updated "Status updated successfully" tracking_number
                       (Parcel.status p)))
          else mret (mkResponse 400 (Failure "Invalid status"))
      | _ => mret (mkResponse 400 (Failure "Invalid status"))
      end
  end.

(** [GET /api/v1/parcels] *)
Definition listParcels : M Response :=
  allParcels ← parcels_values;
  mret (mkResponse 200 (Listing (length allParcels) allParcels)).

(** [POST /api/v1/parcels/:tracking_number/simulate].  [delays[speed]]
    converts [speed] to a property key; when that throws, the handler is
    left before anything is armed and Express answers 500.  The delay that is
    looked up only fixes the real time between two callbacks; here a
    callback is an event of its own, see [interval_callback]. *)
Definition simulate (tracking_number : string)
    (body : gmap string Value) : M Response :=
  let speed := field body "speed" in
  found ← parcels_get tracking_number;
  match found with
  | None => mret (mkResponse 404 (Failure "Parcel not found"))
  | Some parcel =>
      if negb (converts_to_string speed) then
        mret (mkResponse 500 ServerError)
      else
        let statusFlow :=
          if is_failed_scenario (field body "scenario")
          then flow_failed else flow_default in
        setInterval (Timer.mk tracking_number parcel statusFlow 0);;
        mret (mkResponse 200
                (SimulationStarted
                   ("Simulation started for " +:+ tracking_number)
                   tracking_number speed))
  end.

(** One firing of the interval armed by [simulate]. *)
Definition interval_callback (interval : nat) : M unit :=
  t ← closure interval;
  if bool_decide (length (Timer.statusFlow t) ≤ Timer.currentIndex t) then
    clearInterval interval
  else
    match Timer.statusFlow t !! Timer.currentIndex t with
    | None => stuck
    | Some newStatus =>
        let parcel := Timer.parcel t in
        mutate parcel (Parcel.set_status newStatus);;
        ts ← Date_toISOString;
        mutate parcel
          (Parcel.push_history
             (Entry.mk newStatus ts
                (VString ("Auto-simulated: " +:+ newStatus))));;
        (if String.eqb newStatus STATUSES.DELIVERED
         then ts' ← Date_toISOString;
              mutate parcel (Parcel.set_delivered_at ts')
         else mret tt);;
        parcels_set (Timer.tracking_number t) parcel;;
        p ← read parcel;
        (if truthy (Parcel.webhook_url p)
         then sendWebhook (Parcel.webhook_url p) parcel
         else mret tt);;
        increment_currentIndex interval
    end.

(** ** The event loop *)

Inductive Event :=
  | POST_parcels (body : gmap string Value)
  | GET_parcel (tracking_number : string)
  | PUT_status (tracking_number : string) (body : gmap string Value)
  | GET_parcels
  | POST_simulate (tracking_number : string) (body : gmap string Value)
  | Tick (interval : nat).

(** The state after one event; [None] when the event cannot happen (a tick
    of a timer that is not armed). *)
Definition step (e : Event) (w : World) : option World :=
  match e with
  | POST_parcels body => snd <$> createParcel body w
  | GET_parcel tn => snd <$> getParcel tn w
  | PUT_status tn body => snd <$> updateStatus tn body w
  | GET_parcels => snd <$> listParcels w
  | POST_simulate tn body => snd <$> simulate tn body w
  | Tick id => snd <$> interval_callback id w
  end.

Fixpoint run (es : list Event) (w : World) : option World :=
  match es with
  | [] => Some w
  | e :: es' =>
      match step e w with
      | Some w' => run es' w'
      | None => None
      end
  end.

(** The states the server can be in. *)
Inductive reachable : World → Prop :=
  | reachable_initial : reachable initial
  | reachable_step e w w' :
      reachable w → step e w = Some w' → reachable w'.

End Server.

(** ** Specification vocabulary *)

(** What one accepted status change does to a parcel object, in the order
    the handlers do it: assign [status], push the history entry, and for
    DELIVERED assign [delivered_at]. *)
Definition transition (s : string) (e : Entry.t) (d : string)
    (p : Parcel.t) : Parcel.t :=
  let p' := Parcel.push_history e (Parcel.set_status s p) in
  if String.eqb s STATUSES.DELIVERED then Parcel.set_delivered_at d p' else p'.

(** The webhook request [sendWebhook] builds for parcel [p]. *)
Definition webhook_of (url : Value) (ts : string) (p : Parcel.t) : Webhook.t :=
  Webhook.mk url "parcel.status.updated" ts
    (Webhook.mk_data (Parcel.tracking_number p) (Parcel.order_id p)
       (Parcel.status p) (Parcel.cod_amount p) (Parcel.delivered_at p)
       (Parcel.status_history p)).

(** The parcel the store holds under a tracking number. *)
Definition stored (w : World) (tn : string) : option Parcel.t :=
  l ← parcels w !! tn; heap w !! l.

(** The statuses of a history, oldest first. *)
Definition statuses (h : list Entry.t) : list string := Entry.status <$> h.

(** The required-field test of the creation handler. *)
Definition rejected (body : gmap string Value) : bool :=
  negb (truthy (field body "order_id"))
  || negb (truthy (field body "customer_name"))
  || negb (truthy (field body "customer_phone"))
  || negb (truthy (field body "customer_address"))
  || negb (truthy (field body "price")).

(** The object literal the creation handler builds when the counter is [c]
    and the clock shows [created], then [ts]. *)
Definition new_parcel (body : gmap string Value) (c : Z)
    (created ts : string) : Parcel.t :=
  Parcel.mk ("YDN" +:+ Number_toString c) (field body "order_id")
    (field body "customer_name") (field body "customer_phone")
    (field body "customer_address")
    (or_else (field body "wilaya") (VString "Tlemcen"))
    (or_else (field body "commune") (VString "Tlemcen"))
    (or_else (field body "product_list") (VArray []))
    (field body "price") (field body "price") STATUSES.PENDING_PICKUP
    (field body "webhook_url") created
    [Entry.mk STATUSES.PENDING_PICKUP ts
       (VString "Parcel created and awaiting pickup")]
    None.

(** The closure of a timer after [currentIndex++]. *)
Definition advance (t : Timer.t) : Timer.t :=
  Timer.mk (Timer.tracking_number t) (Timer.parcel t) (Timer.statusFlow t)
    (S (Timer.currentIndex t)).

(** The sequence the simulate handler picks for a request body. *)
Definition chosen_flow (body : gmap string Value) : list string :=
  if is_failed_scenario (field body "scenario")
  then flow_failed else flow_default.

(** [status] agrees with the last history entry. *)
Definition consistent (p : Parcel.t) : Prop :=
  last (statuses (Parcel.status_history p)) = Some (Parcel.status p).

(** The history starts with the PENDING_PICKUP entry of the creation. *)
Definition starts_pending (p : Parcel.t) : Prop :=
  head (statuses (Parcel.status_history p)) = Some STATUSES.PENDING_PICKUP.

(** The tracking number rendered from counter value [k]. *)
Definition tracking (k : Z) : string := "YDN" +:+ Number_toString k.

(** What an event does to the heap, the Map, the counter and the timers:
    the shapes the handlers' executions take. *)
Inductive effect (e : Event) (w w' : World) : Prop :=
  | eff_none :
      (∀ id, e ≠ Tick id) → w' = w → effect e w w'
  | eff_create body created ts :
      e = POST_parcels body →
      heap w' = heap w ++ [new_parcel body (parcelIdCounter w) created ts] →
      parcels w' = <[tracking (parcelIdCounter w) := length (heap w)]> (parcels w) →
      parcelIdCounter w' = increment (parcelIdCounter w) →
      timers w' = timers w →
      next_timer w' = next_timer w →
      effect e w w'
  | eff_update tn body l p s en d :
      e = PUT_status tn body →
      parcels w !! tn = Some l →
      heap w !! l = Some p →
      field body "status" = VString s →
      s ∈ STATUSES.values →
      Entry.status en = s →
      heap w' = <[l := transition s en d p]> (heap w) →
      parcels w' = parcels w →
      parcelIdCounter w' = parcelIdCounter w →
      timers w' = timers w →
      next_timer w' = next_timer w →
      effect e w w'
  | eff_arm tn body l :
      e = POST_simulate tn body →
      parcels w !! tn = Some l →
      heap w' = heap w →
      parcels w' = parcels w →
      parcelIdCounter w' = parcelIdCounter w →
      timers w' = <[next_timer w := Timer.mk tn l (chosen_flow body) 0]> (timers w) →
      next_timer w' = S (next_timer w) →
      effect e w w'
  | eff_cancel id t :
      e = Tick id →
      timers w !! id = Some t →
      length (Timer.statusFlow t) ≤ Timer.currentIndex t →
      heap w' = heap w →
      parcels w' = parcels w →
      parcelIdCounter w' = parcelIdCounter w →
      timers w' = delete id (timers w) →
      next_timer w' = next_timer w →
      effect e w w'
  | eff_tick id t p s en d :
      e = Tick id →
      timers w !! id = Some t →
      Timer.statusFlow t !! Timer.currentIndex t = Some s →
      heap w !! Timer.parcel t = Some p →
      Entry.status en = s →
      heap w' = <[Timer.parcel t := transition s en d p]> (heap w) →
      parcels w' = <[Timer.tracking_number t := Timer.parcel t]> (parcels w) →
      parcelIdCounter w' = parcelIdCounter w →
      timers w' = <[id := advance t]> (timers w) →
      next_timer w' = next_timer w →
      effect e w w'.

(** The parcel object an event is about to move, and the status it will
    give it: an accepted manual update, or a simulation tick with a status
    left in its sequence. *)
Definition requested (e : Event) (w : World) : option (loc * string) :=
  match e with
  | PUT_status tn body =>
      l ← parcels w !! tn;
      match field body "status" with
      | VString s =>
          if bool_decide (s ∈ STATUSES.values) then Some (l, s) else None
      | _ => None
      end
  | Tick id =>
      t ← timers w !! id;
      s ← Timer.statusFlow t !! Timer.currentIndex t;
      Some (Timer.parcel t, s)
  | _ => None
  end.

(** Every parcel object is consistent and starts PENDING_PICKUP; the Map and
    the timers refer to allocated objects; timer handles are fresh. *)
Definition sound (w : World) : Prop :=
  (∀ l p, heap w !! l = Some p → consistent p ∧ starts_pending p)
  ∧ (∀ tn l, parcels w !! tn = Some l → l < length (heap w))
  ∧ (∀ id t, timers w !! id = Some t →
       Timer.parcel t < length (heap w) ∧ id < next_timer w).

(** While the counter still counts exactly, every key of the Map was
    rendered from a smaller counter value, and every timer's parcel is the
    one the Map holds under the timer's tracking number. *)
Definition unique_keys (w : World) : Prop :=
  (parcelIdCounter w < MAX_EXACT)%Z →
  (∀ tn l, parcels w !! tn = Some l →
     ∃ k, tn = tracking k ∧ (k < parcelIdCounter w)%Z)
  ∧ (∀ id t, timers w !! id = Some t →
       parcels w !! Timer.tracking_number t = Some (Timer.parcel t)).

(** A stretch of the server's life seen from the timer [id]: [n] of its
    callbacks ran, and between them any number of other events [e], each
    allowed by [quiet] in the state it met. *)
Inductive interleaved (clock : nat → string)
    (quiet : Event → World → Prop) (id : nat) : nat → World → World → Prop :=
  | interleaved_start w :
      interleaved clock quiet id 0 w w
  | interleaved_tick n w w1 w2 :
      interleaved clock quiet id n w w1 →
      step clock (Tick id) w1 = Some w2 →
      interleaved clock quiet id (S n) w w2
  | interleaved_other n w w1 w2 e :
      interleaved clock quiet id n w w1 →
      e ≠ Tick id →
      quiet e w1 →
      step clock e w1 = Some w2 →
      interleaved clock quiet id n w w2.

(** No restriction on the other events. *)
Definition any_event (e : Event) (w : World) : Prop := True.

(** The other events do not move the parcel object at [l]: no manual update
    of it and no tick of another simulation of it. *)
Definition leaves (l : loc) (e : Event) (w : World) : Prop :=
  ∀ s, requested e w ≠ Some (l, s).

(** ** Sample inputs *)

(** A clock whose readings are all different. *)
Definition sample_clock (n : nat) : string := "t" +:+ pretty n.

(** A complete creation request. *)
Definition order : gmap string Value :=
  list_to_map
    [("order_id", VString "ORD1"); ("customer_name", VString "A");
     ("customer_phone", VString "000"); ("customer_address", VString "X");
     ("price", VNumber (Number 1000));
     ("webhook_url", VString "http://localhost:5000/webhook")].

(** The same request with a price of zero, without a price, and with an
    empty webhook URL. *)
Definition order_zero_price : gmap string Value :=
  <["price" := VNumber (S754_zero false)]> order.

Definition order_without_price : gmap string Value :=
  delete "price" order.

Definition order_empty_webhook : gmap string Value :=
  <["webhook_url" := VString ""]> order.

(** Bodies of a manual update and of the two simulation scenarios. *)
Definition status_body (s : string) : gmap string Value :=
  {[ "status" := VString s ]}.

Definition failed_scenario : gmap string Value :=
  {[ "scenario" := VString "failed"; "speed" := VString "fast" ]}.

Definition default_scenario : gmap string Value := ∅.

(** A simulate body whose speed has no property key: [{"toString": 1}]. *)
Definition unconvertible_speed : gmap string Value :=
  {[ "speed" := VObject [("toString", VNumber (Number 1))] ]}.

(** The state after [es], from the initial state, under [sample_clock]. *)
Definition after (es : list Event) : World :=
  default initial (run sample_clock es initial).

(** The state after a creation; after one and two manual deliveries of that
    parcel; after a manual delivery followed by a default simulation up to
    its DELIVERED step; after the start of a "failed" simulation and after
    its first five callbacks. *)
Definition created : World := after [POST_parcels order].

Definition delivered_once : World :=
  after [POST_parcels order; PUT_status "YDN1000" (status_body "delivered")].

Definition delivered_twice : World :=
  after [POST_parcels order; PUT_status "YDN1000" (status_body "delivered");
         PUT_status "YDN1000" (status_body "delivered")].

Definition delivered_then_simulated : World :=
  after [POST_parcels order; PUT_status "YDN1000" (status_body "delivered");
         POST_simulate "YDN1000" default_scenario;
         Tick 0; Tick 0; Tick 0; Tick 0].

Definition simulation_started : World :=
  after [POST_parcels order; POST_simulate "YDN1000" failed_scenario].

Definition five_ticks : World :=
  after [POST_parcels order; POST_simulate "YDN1000" failed_scenario;
         Tick 0; Tick 0; Tick 0; Tick 0; Tick 0].

(** A state reached through a simulation tick, a manual update and another
    tick. *)
Definition mixed : World :=
  after [POST_parcels order; POST_simulate "YDN1000" failed_scenario;
         Tick 0; PUT_status "YDN1000" (status_body "cancelled"); Tick 0].

(** Two parcels in the store. *)
Definition two_parcels : World :=
  after [POST_parcels order; POST_parcels order_empty_webhook].

(** ** Further vocabulary *)

(** The properties of a parcel that no handler assigns after the creation. *)
Definition same_identity (p p' : Parcel.t) : Prop :=
  Parcel.tracking_number p' = Parcel.tracking_number p
  ∧ Parcel.order_id p' = Parcel.order_id p
  ∧ Parcel.customer_name p' = Parcel.customer_name p
  ∧ Parcel.customer_phone p' = Parcel.customer_phone p
  ∧ Parcel.customer_address p' = Parcel.customer_address p
  ∧ Parcel.wilaya p' = Parcel.wilaya p
  ∧ Parcel.commune p' = Parcel.commune p
  ∧ Parcel.product_list p' = Parcel.product_list p
  ∧ Parcel.price p' = Parcel.price p
  ∧ Parcel.cod_amount p' = Parcel.cod_amount p
  ∧ Parcel.webhook_url p' = Parcel.webhook_url p
  ∧ Parcel.created_at p' = Parcel.created_at p.

(** What holds of a parcel object from its creation on. *)
Definition kept (p : Parcel.t) : Prop :=
  Parcel.cod_amount p = Parcel.price p
  ∧ truthy (Parcel.order_id p) = true
  ∧ truthy (Parcel.customer_name p) = true
  ∧ truthy (Parcel.customer_phone p) = true
  ∧ truthy (Parcel.customer_address p) = true
  ∧ truthy (Parcel.price p) = true
  ∧ Parcel.status p ∈ STATUSES.values
  ∧ (∀ s, s ∈ statuses (Parcel.status_history p) → s ∈ STATUSES.values)
  ∧ (is_Some (Parcel.delivered_at p)
     ↔ STATUSES.DELIVERED ∈ statuses (Parcel.status_history p)).

(** Every parcel object is [kept]; a parcel is stored under its own
    tracking number; a timer runs one of the two sequences on the parcel
    whose tracking number it captured. *)
Definition well_kept (w : World) : Prop :=
  (∀ l p, heap w !! l = Some p → kept p)
  ∧ (∀ tn l p, parcels w !! tn = Some l → heap w !! l = Some p →
       Parcel.tracking_number p = tn)
  ∧ (∀ id t, timers w !! id = Some t →
       (Timer.statusFlow t = flow_failed ∨ Timer.statusFlow t = flow_default)
       ∧ ∀ p, heap w !! Timer.parcel t = Some p →
           Parcel.tracking_number p = Timer.tracking_number t).

(** While the counter counts exactly it is at least 1000, and the Map
    holds exactly the tracking numbers rendered from 1000 up to the counter,
    the counter itself excluded. *)
Definition numbered (w : World) : Prop :=
  (parcelIdCounter w < MAX_EXACT)%Z →
  (1000 ≤ parcelIdCounter w)%Z
  ∧ ∀ tn, is_Some (parcels w !! tn)
          ↔ ∃ k, (1000 ≤ k < parcelIdCounter w)%Z ∧ tn = tracking k.

(** The statuses the webhooks of a list report, oldest first. *)
Definition reported (hooks : list Webhook.t) : list string :=
  (λ h, Webhook.status (Webhook.payload h)) <$> hooks.

Section Properties.

Variable clock : nat → string.

(** Symbolic execution of a handler: unfold the monad and the primitives,
    and resolve the lookups of the object at a location that was read or
    just written. *)
Ltac exec :=
  unfold mbind, M_bind, mret, M_ret, mutate, read, Date_toISOString,
    parcels_set, parcels_get, sendWebhook, axios_post, post_increment,
    new_object, setInterval, clearInterval, closure, increment_currentIndex,
    stuck;
  cbn [heap parcels parcelIdCounter timers next_timer outbox clock_reads].

Ltac exec_with H :=
  exec;
  repeat (first
    [ rewrite H
    | rewrite list_lookup_insert_eq by (rewrite ?length_insert; done) ];
    exec).

Lemma Date_bind {A} (k : string → M A) w :
  (Date_toISOString clock ≫= k) w =
  k (clock (clock_reads w))
    (mkWorld (heap w) (parcels w) (parcelIdCounter w) (timers w)
             (next_timer w) (outbox w) (S (clock_reads w))).
Proof. reflexivity. Qed.

Lemma sendWebhook_bind {A} url l (k : unit → M A) w p :
  heap w !! l = Some p →
  (sendWebhook clock url l ≫= k) w =
  k tt (mkWorld (heap w) (parcels w) (parcelIdCounter w) (timers w)
                (next_timer w)
                (outbox w ++ [webhook_of url (clock (clock_reads w)) p])
                (S (clock_reads w))).
Proof.
  intros H. unfold sendWebhook, mbind, M_bind, Date_toISOString, read. cbn.
  by rewrite H.
Qed.

(** *** Creation *)

Lemma createParcel_rejects body w :
  rejected body = true →
  createParcel clock body w
  = Some (mkResponse 400 (Failure "Missing required fields"), w).
Proof.
  unfold rejected, createParcel. intros ->. reflexivity.
Qed.


Lemma createParcel_accepts body w :
  rejected body = false →
  let n := clock_reads w in
  let tn := "YDN" +:+ Number_toString (parcelIdCounter w) in
  let p := new_parcel body (parcelIdCounter w) (clock n) (clock (S n)) in
  let url := field body "webhook_url" in
  createParcel clock body w
  = Some (mkResponse 201
            (Created "Parcel created successfully" tn STATUSES.PENDING_PICKUP
               "2-3 business days"),
          mkWorld (heap w ++ [p]) (<[tn := length (heap w)]> (parcels w))
            (increment (parcelIdCounter w)) (timers w) (next_timer w)
            (if truthy url
             then outbox w ++ [webhook_of url (clock (S (S n))) p]
             else outbox w)
            (if truthy url then S (S (S n)) else S (S n))).
Proof.
  unfold rejected, createParcel. intros ->. cbn zeta.
  destruct (truthy (field body "webhook_url")) eqn:Hurl.
  - unfold mbind at 1, M_bind at 1, post_increment. rewrite !Date_bind.
    unfold mbind at 1, M_bind at 1, new_object.
    unfold mbind at 1, M_bind at 1, parcels_set.
    erewrite sendWebhook_bind; [reflexivity|].
    cbn [heap parcels parcelIdCounter timers next_timer outbox clock_reads].
    by rewrite lookup_app_r, Nat.sub_diag by lia.
  - reflexivity.
Qed.

(** *** Manual status update *)

Lemma updateStatus_not_found tn body w :
  parcels w !! tn = None →
  updateStatus clock tn body w
  = Some (mkResponse 404 (Failure "Parcel not found"), w).
Proof.
  intros H. unfold updateStatus, mbind, M_bind, parcels_get. by rewrite H.
Qed.

Lemma updateStatus_rejects tn body w l :
  parcels w !! tn = Some l →
  includes STATUSES.values (field body "status") = false →
  updateStatus clock tn body w
  = Some (mkResponse 400 (Failure "Invalid status"), w).
Proof.
  intros H Hs. unfold updateStatus, mbind, M_bind, parcels_get. rewrite H.
  destruct (field body "status"); try reflexivity. by rewrite Hs.
Qed.

Lemma updateStatus_applies tn body w l p s :
  parcels w !! tn = Some l →
  heap w !! l = Some p →
  field body "status" = VString s →
  s ∈ STATUSES.values →
  let n := clock_reads w in
  let e := Entry.mk s (clock n)
             (or_else (field body "note")
                (VString ("Status updated to " +:+ s))) in
  let p' := transition s e (clock (S n)) p in
  let n' := if String.eqb s STATUSES.DELIVERED then S (S n) else S n in
  let url := Parcel.webhook_url p in
  updateStatus clock tn body w
  = Some (mkResponse 200 (Updated "Status updated successfully" tn s),
          mkWorld (<[l := p']> (heap w)) (parcels w) (parcelIdCounter w)
            (timers w) (next_timer w)
            (if truthy url then outbox w ++ [webhook_of url (clock n') p']
             else outbox w)
            (if truthy url then S n' else n')).
Proof.
  intros Htn Hl Hs Hin. cbn zeta.
  assert (Hlt : l < length (heap w)) by (by eapply lookup_lt_Some).
  unfold updateStatus, transition. rewrite Hs. unfold includes.
  rewrite bool_decide_true by done.
  destruct (String.eqb s STATUSES.DELIVERED) eqn:Hd;
    destruct (truthy (Parcel.webhook_url p)) eqn:Hurl;
    exec; rewrite Htn; exec_with Hl;
    rewrite ?list_insert_insert_eq, insert_id by done;
    cbn [Parcel.webhook_url Parcel.set_delivered_at Parcel.push_history
         Parcel.set_status];
    rewrite Hurl; exec_with Hl; rewrite ?list_insert_insert_eq; reflexivity.
Qed.

(** *** Read-only handlers *)

Lemma getParcel_world tn w r w' :
  getParcel tn w = Some (r, w') → w' = w.
Proof.
  unfold getParcel. exec. destruct (parcels w !! tn) as [l|]; exec.
  - destruct (heap w !! l); [|done]. by intros [= _ <-].
  - by intros [= _ <-].
Qed.

Lemma listParcels_world w :
  ∃ r, listParcels w = Some (r, w).
Proof. unfold listParcels, parcels_values. exec. eauto. Qed.

(** *** Simulation *)

Lemma simulate_not_found tn body w :
  parcels w !! tn = None →
  simulate tn body w = Some (mkResponse 404 (Failure "Parcel not found"), w).
Proof. intros H. unfold simulate. exec. by rewrite H. Qed.

Lemma simulate_throws tn body w l :
  parcels w !! tn = Some l →
  converts_to_string (field body "speed") = false →
  simulate tn body w = Some (mkResponse 500 ServerError, w).
Proof. intros H Hs. unfold simulate. exec. by rewrite H, Hs. Qed.

Lemma simulate_arms tn body w l :
  parcels w !! tn = Some l →
  converts_to_string (field body "speed") = true →
  simulate tn body w
  = Some (mkResponse 200
            (SimulationStarted ("Simulation started for " +:+ tn) tn
               (field body "speed")),
          mkWorld (heap w) (parcels w) (parcelIdCounter w)
            (<[next_timer w := Timer.mk tn l (chosen_flow body) 0]> (timers w))
            (S (next_timer w)) (outbox w) (clock_reads w)).
Proof. intros H Hs. unfold simulate, chosen_flow. exec. by rewrite H, Hs. Qed.

Lemma interval_callback_unarmed id w :
  timers w !! id = None → interval_callback clock id w = None.
Proof. intros H. unfold interval_callback. exec. by rewrite H. Qed.

Lemma interval_callback_cancels id w t :
  timers w !! id = Some t →
  length (Timer.statusFlow t) ≤ Timer.currentIndex t →
  interval_callback clock id w
  = Some (tt, mkWorld (heap w) (parcels w) (parcelIdCounter w)
                (delete id (timers w)) (next_timer w) (outbox w)
                (clock_reads w)).
Proof.
  intros H Hle. unfold interval_callback. exec. rewrite H.
  by rewrite bool_decide_true by done.
Qed.

Lemma interval_callback_applies id w t s p :
  timers w !! id = Some t →
  Timer.statusFlow t !! Timer.currentIndex t = Some s →
  heap w !! Timer.parcel t = Some p →
  let n := clock_reads w in
  let e := Entry.mk s (clock n) (VString ("Auto-simulated: " +:+ s)) in
  let p' := transition s e (clock (S n)) p in
  let n' := if String.eqb s STATUSES.DELIVERED then S (S n) else S n in
  let url := Parcel.webhook_url p in
  interval_callback clock id w
  = Some (tt,
          mkWorld (<[Timer.parcel t := p']> (heap w))
            (<[Timer.tracking_number t := Timer.parcel t]> (parcels w))
            (parcelIdCounter w) (<[id := advance t]> (timers w))
            (next_timer w)
            (if truthy url then outbox w ++ [webhook_of url (clock n') p']
             else outbox w)
            (if truthy url then S n' else n')).
Proof.
  intros Ht Hs Hl. cbn zeta.
  assert (Hlt : Timer.parcel t < length (heap w)) by (by eapply lookup_lt_Some).
  assert (Hidx : ¬ length (Timer.statusFlow t) ≤ Timer.currentIndex t).
  { apply lookup_lt_Some in Hs. lia. }
  unfold interval_callback, transition, advance.
  destruct (String.eqb s STATUSES.DELIVERED) eqn:Hd;
    destruct (truthy (Parcel.webhook_url p)) eqn:Hurl;
    exec; rewrite Ht; rewrite bool_decide_false by done; rewrite Hs, Hd;
    exec_with Hl; rewrite ?list_insert_insert_eq;
    cbn [Parcel.webhook_url Parcel.set_delivered_at Parcel.push_history
         Parcel.set_status];
    rewrite Hurl; exec_with Hl; rewrite ?Ht; reflexivity.
Qed.

(** *** Every event has one of the listed effects *)

Lemma step_effect e w w' :
  step clock e w = Some w' → effect e w w'.
Proof.
  destruct e as [body|tn|tn body| |tn body|id]; cbn [step].
  - (* creation *)
    destruct (rejected body) eqn:Hr.
    + rewrite createParcel_rejects by done. intros [= <-]. by apply eff_none.
    + rewrite createParcel_accepts by done. intros [= <-].
      by eapply eff_create.
  - (* tracking *)
    destruct (getParcel tn w) as [[r w'']|] eqn:Hg; [|done].
    apply getParcel_world in Hg as ->. intros [= <-]. by apply eff_none.
  - (* manual update *)
    destruct (parcels w !! tn) as [l|] eqn:Htn.
    2:{ rewrite updateStatus_not_found by done. intros [= <-].
        by apply eff_none. }
    destruct (includes STATUSES.values (field body "status")) eqn:Hin.
    2:{ erewrite updateStatus_rejects by done. intros [= <-].
        by apply eff_none. }
    destruct (field body "status") as [| | | |s| |] eqn:Hs; try done.
    apply bool_decide_eq_true in Hin.
    destruct (heap w !! l) as [p|] eqn:Hl.
    + erewrite updateStatus_applies by done. intros [= <-].
      by eapply (eff_update _ _ _ tn body l p s (Entry.mk s _ _)).
    + unfold updateStatus. rewrite Hs. unfold includes.
      rewrite bool_decide_true by done. exec. rewrite Htn. exec.
      by rewrite Hl.
  - (* listing *)
    destruct (listParcels_world w) as [r ->]. intros [= <-]. by apply eff_none.
  - (* simulation start *)
    destruct (parcels w !! tn) as [l|] eqn:Htn.
    + destruct (converts_to_string (field body "speed")) eqn:Hsp.
      * erewrite simulate_arms by done. intros [= <-]. by eapply eff_arm.
      * erewrite simulate_throws by done. intros [= <-]. by apply eff_none.
    + rewrite simulate_not_found by done. intros [= <-]. by apply eff_none.
  - (* timer callback *)
    destruct (timers w !! id) as [t|] eqn:Ht.
    2:{ by rewrite interval_callback_unarmed. }
    destruct (decide (length (Timer.statusFlow t) ≤ Timer.currentIndex t))
      as [Hle|Hlt].
    { erewrite interval_callback_cancels by done. intros [= <-].
      by eapply eff_cancel. }
    destruct (lookup_lt_is_Some_2 (Timer.statusFlow t) (Timer.currentIndex t))
      as [s Hs]; [lia|].
    destruct (heap w !! Timer.parcel t) as [p|] eqn:Hl.
    + erewrite interval_callback_applies by done. intros [= <-].
      by eapply (eff_tick _ _ _ id t p s (Entry.mk s _ _)).
    + unfold interval_callback. exec. rewrite Ht.
      rewrite bool_decide_false by done. rewrite Hs. exec. by rewrite Hl.
Qed.

(** *** What a status change does to one parcel *)

Lemma transition_history s e d p :
  Parcel.status_history (transition s e d p) = Parcel.status_history p ++ [e].
Proof. unfold transition. by destruct (String.eqb s STATUSES.DELIVERED). Qed.

Lemma transition_status s e d p :
  Parcel.status (transition s e d p) = s.
Proof. unfold transition. by destruct (String.eqb s STATUSES.DELIVERED). Qed.

Lemma transition_delivered_at s e d p :
  Parcel.delivered_at (transition s e d p)
  = if String.eqb s STATUSES.DELIVERED then Some d else Parcel.delivered_at p.
Proof. unfold transition. by destruct (String.eqb s STATUSES.DELIVERED). Qed.

Lemma transition_consistent s e d p :
  Entry.status e = s → consistent (transition s e d p).
Proof.
  intros He. unfold consistent, statuses.
  rewrite transition_history, transition_status, fmap_app. cbn.
  by rewrite last_snoc, He.
Qed.

Lemma transition_starts_pending s e d p :
  starts_pending p → starts_pending (transition s e d p).
Proof.
  unfold starts_pending, statuses. intros H.
  by rewrite transition_history, fmap_app, head_app, H.
Qed.

Lemma new_parcel_ok body c created ts :
  consistent (new_parcel body c created ts)
  ∧ starts_pending (new_parcel body c created ts).
Proof. done. Qed.

(** *** Histories only grow *)

Lemma effect_extends e w w' l p :
  effect e w w' →
  heap w !! l = Some p →
  ∃ p' ext,
    heap w' !! l = Some p'
    ∧ Parcel.status_history p' = Parcel.status_history p ++ ext.
Proof.
  intros Heff Hl.
  assert (Hsame : heap w' = heap w →
    ∃ p' ext, heap w' !! l = Some p'
      ∧ Parcel.status_history p' = Parcel.status_history p ++ ext).
  { intros ->. exists p, []. by rewrite app_nil_r. }
  assert (Hput : ∀ l0 p0 s en d, heap w !! l0 = Some p0 →
    heap w' = <[l0 := transition s en d p0]> (heap w) →
    ∃ p' ext, heap w' !! l = Some p'
      ∧ Parcel.status_history p' = Parcel.status_history p ++ ext).
  { intros l0 p0 s en d Hl0 ->. destruct (decide (l0 = l)) as [->|Hne].
    - exists (transition s en d p), [en].
      rewrite list_lookup_insert_eq by (by eapply lookup_lt_Some).
      rewrite transition_history. by simplify_eq.
    - exists p, []. by rewrite list_lookup_insert_ne, app_nil_r. }
  destruct Heff as [_ ->|body created ts _ Hh| | | |]; eauto.
  exists p, []. rewrite Hh, lookup_app_l by (by eapply lookup_lt_Some).
  by rewrite app_nil_r.
Qed.

(** *** The invariants *)

Lemma initial_sound : sound initial ∧ unique_keys initial.
Proof.
  repeat split; cbn; intros; simplify_map_eq; by simplify_list_eq.
Qed.

Lemma effect_sound e w w' :
  effect e w w' → sound w → sound w'.
Proof.
  intros Heff (Hheap & Hstore & Htimers).
  assert (Hput : ∀ l0 p0 s en d, heap w !! l0 = Some p0 →
    Entry.status en = s →
    heap w' = <[l0 := transition s en d p0]> (heap w) →
    ∀ l p, heap w' !! l = Some p → consistent p ∧ starts_pending p).
  { intros l0 p0 s en d Hl0 He -> l p.
    destruct (decide (l0 = l)) as [->|Hne].
    - rewrite list_lookup_insert_eq by (by eapply lookup_lt_Some).
      intros [= <-]. split; [by apply transition_consistent|].
      apply transition_starts_pending. by eapply Hheap.
    - rewrite list_lookup_insert_ne by done. apply Hheap. }
  destruct Heff as
    [_ ->|body created ts _ Hh Hp Hc Ht Hn
       |tn body l0 p0 s en d _ Htn Hl0 _ _ He Hh Hp Hc Ht Hn
       |tn body l0 _ Htn Hh Hp Hc Ht Hn
       |id t _ _ _ Hh Hp Hc Ht Hn
       |id t p0 s en d _ Hid _ Hl0 He Hh Hp Hc Ht Hn]; [done|..].
  - (* creation *)
    split; [|split].
    + intros l p H. rewrite Hh in H.
      apply lookup_app_Some in H as [H|[_ H]]; [by eapply Hheap|].
      apply list_lookup_singleton_Some in H as [_ <-]. apply new_parcel_ok.
    + intros tn l. rewrite Hp, Hh, length_app. cbn.
      intros [[_ <-]|[_ H]]%lookup_insert_Some; [lia|].
      apply Hstore in H. lia.
    + intros id t. rewrite Ht, Hh, length_app, Hn.
      intros H. apply Htimers in H. cbn. lia.
  - (* manual update *)
    split; [by eapply Hput|]. by rewrite Hh, length_insert, Hp, Ht, Hn.
  - (* arming a timer *)
    unfold sound. rewrite Hh, Hp, Ht, Hn. split; [done|split; [done|]].
    intros id t [[<- <-]|[_ H]]%lookup_insert_Some; cbn.
    + split; [by eapply Hstore|lia].
    + apply Htimers in H. lia.
  - (* cancelling a timer *)
    unfold sound. rewrite Hh, Hp, Ht, Hn. split; [done|split; [done|]].
    intros id' t' [_ H]%lookup_delete_Some. by eapply Htimers.
  - (* timer callback *)
    split; [by eapply Hput|]. rewrite Hh, length_insert, Hp, Ht, Hn.
    split.
    + intros tn l [[_ <-]|[_ H]]%lookup_insert_Some; eauto.
      by eapply lookup_lt_Some.
    + intros id' t' [[<- <-]|[_ H]]%lookup_insert_Some; eauto.
      cbn. by eapply Htimers.
Qed.

(** The counter against IEEE addition, at an ordinary value and at the
    two values around the point where doubles stop counting. *)
Example increment_is_double_addition :
  SFadd 53 1024 (Number 1000) (Number 1) = Number (increment 1000)
  ∧ SFadd 53 1024 (Number (MAX_EXACT - 1)) (Number 1)
    = Number (increment (MAX_EXACT - 1))
  ∧ SFadd 53 1024 (Number MAX_EXACT) (Number 1) = Number (increment MAX_EXACT)
  ∧ increment MAX_EXACT = MAX_EXACT.
Proof. vm_compute. done. Qed.

Lemma increment_ge c : (c ≤ increment c)%Z.
Proof. unfold increment. case_match; lia. Qed.

Lemma increment_exact c :
  (c < MAX_EXACT)%Z → increment c = (c + 1)%Z.
Proof. unfold increment. intros H. case_match; [done|lia]. Qed.

Lemma increment_below c :
  (increment c < MAX_EXACT)%Z → (c < MAX_EXACT)%Z.
Proof. pose proof (increment_ge c). lia. Qed.

#[local] Instance tracking_inj : Inj (=) (=) tracking.
Proof.
  intros k1 k2 H. unfold tracking, Number_toString in H.
  apply String.app_inj in H. by apply (inj pretty).
Qed.

(** While the counter counts exactly, no event rebinds a tracking number
    that the Map already holds. *)
Lemma effect_store_stable e w w' tn l :
  effect e w w' →
  unique_keys w →
  (parcelIdCounter w < MAX_EXACT)%Z →
  parcels w !! tn = Some l →
  parcels w' !! tn = Some l.
Proof.
  intros Heff Huniq Hc Htn. destruct (Huniq Hc) as [Hkeys Hcoh].
  destruct Heff as
    [_ ->|body created ts _ _ Hp _ _ _
       |? ? ? ? ? ? ? _ _ _ _ _ _ _ Hp _ _ _
       |? ? ? _ _ _ Hp _ _ _
       |? ? _ _ _ _ Hp _ _ _
       |id t ? ? ? ? _ Hid _ _ _ _ Hp _ _ _]; rewrite ?Hp; try done.
  - rewrite lookup_insert_ne; [done|]. intros <-.
    destruct (Hkeys _ _ Htn) as (k & Hk%(inj tracking) & Hlt). lia.
  - by rewrite insert_id by (by eapply Hcoh).
Qed.

Lemma effect_unique_keys e w w' :
  effect e w w' → unique_keys w → unique_keys w'.
Proof.
  intros Heff Huniq.
  destruct Heff as
    [_ ->|body created ts _ Hh Hp Hc Ht Hn
       |tn body l0 p0 s en d _ Htn Hl0 _ _ He Hh Hp Hc Ht Hn
       |tn body l0 _ Htn Hh Hp Hc Ht Hn
       |id t _ _ _ Hh Hp Hc Ht Hn
       |id t p0 s en d _ Hid _ Hl0 He Hh Hp Hc Ht Hn]; [done|..];
    unfold unique_keys; rewrite Hc; intros Hlt.
  - (* creation *)
    apply increment_below in Hlt as Hlt'.
    destruct (Huniq Hlt') as [Hkeys Hcoh].
    rewrite increment_exact, Hp, Ht by done. split.
    + intros tn l [[<- _]|[_ H]]%lookup_insert_Some.
      * exists (parcelIdCounter w). split; [done|lia].
      * destruct (Hkeys _ _ H) as (k & -> & ?). exists k. split; [done|lia].
    + intros id t Hid. specialize (Hcoh _ _ Hid).
      rewrite lookup_insert_ne; [done|]. intros Heq.
      destruct (Hkeys _ _ Hcoh) as (k & Hk & ?). rewrite Hk in Heq.
      apply (inj tracking) in Heq. lia.
  - (* manual update *)
    rewrite Hp, Ht. by apply Huniq.
  - (* arming a timer *)
    destruct (Huniq Hlt) as [Hkeys Hcoh]. rewrite Hp, Ht. split; [done|].
    intros id t [[_ <-]|[_ H]]%lookup_insert_Some; cbn; eauto.
  - (* cancelling a timer *)
    destruct (Huniq Hlt) as [Hkeys Hcoh]. rewrite Hp, Ht. split; [done|].
    intros id' t' [_ H]%lookup_delete_Some. eauto.
  - (* timer callback *)
    destruct (Huniq Hlt) as [Hkeys Hcoh].
    rewrite Hp, Ht, insert_id by (by eapply Hcoh). split; [done|].
    intros id' t' [[_ <-]|[_ H]]%lookup_insert_Some; cbn; eauto.
Qed.

Lemma reachable_invariant w :
  reachable clock w → sound w ∧ unique_keys w.
Proof.
  induction 1 as [|e w w' _ [IHs IHu] Hstep]; [apply initial_sound|].
  apply step_effect in Hstep.
  split; [by eapply effect_sound|by eapply effect_unique_keys].
Qed.

(** *** Frames: what an event leaves alone *)

Lemma effect_requested e w w' :
  effect e w w' →
  w' = w
  ∨ heap w' = heap w ++ drop (length (heap w)) (heap w')
    ∧ requested e w = None
  ∨ ∃ l s p en d,
      requested e w = Some (l, s) ∧ heap w !! l = Some p
      ∧ Entry.status en = s
      ∧ heap w' = <[l := transition s en d p]> (heap w).
Proof.
  intros [_ ->|body created ts -> Hh _ _ _ _
         |tn body l p s en d -> Htn Hl Hs Hin He Hh _ _ _ _
         |tn body l -> _ Hh _ _ _ _
         |id t -> Hid Hle Hh _ _ _ _
         |id t p s en d -> Hid Hs Hl He Hh _ _ _ _].
  - by left.
  - right; left. split; [|done]. by rewrite Hh, drop_app_length.
  - right; right. exists l, s, p, en, d. repeat split; try done.
    cbn. rewrite Htn, Hs. cbn. by rewrite bool_decide_true.
  - right; left. split; [|done]. by rewrite Hh, drop_all, app_nil_r.
  - right; left. split; [by rewrite Hh, drop_all, app_nil_r|].
    cbn. rewrite Hid. cbn.
    by rewrite (lookup_ge_None_2 (Timer.statusFlow t)) by done.
  - right; right. exists (Timer.parcel t), s, p, en, d. repeat split; try done.
    cbn. rewrite Hid. cbn. by rewrite Hs.
Qed.

(** An event that does not move the object at [l] leaves it as it is. *)
Lemma step_heap_frame e w w' l p :
  step clock e w = Some w' →
  leaves l e w →
  heap w !! l = Some p →
  heap w' !! l = Some p.
Proof.
  intros Hstep%step_effect%effect_requested Hq Hl.
  destruct Hstep as [->|[[Hh _]|(l0 & s & p0 & en & d & Hreq & _ & _ & Hh)]].
  - done.
  - rewrite Hh. by apply lookup_app_l_Some.
  - rewrite Hh, list_lookup_insert_ne; [done|]. intros ->. by eapply Hq.
Qed.

(** Every event keeps the allocated objects allocated. *)
Lemma step_heap_allocated e w w' l :
  step clock e w = Some w' →
  is_Some (heap w !! l) → is_Some (heap w' !! l).
Proof.
  intros Hstep%step_effect [p Hl].
  destruct (effect_extends e w w' l p Hstep Hl) as (p' & _ & Hl' & _). eauto.
Qed.

(** Only its own callback touches an armed timer, and handles stay fresh. *)
Lemma step_timer_frame e w w' id :
  step clock e w = Some w' →
  e ≠ Tick id →
  id < next_timer w →
  timers w' !! id = timers w !! id ∧ id < next_timer w'.
Proof.
  intros Hstep%step_effect Hne Hlt.
  destruct Hstep as
    [_ ->|body created ts _ _ _ _ Ht Hn
       |tn body l0 p0 s en d _ _ _ _ _ _ _ _ _ Ht Hn
       |tn body l0 _ _ _ _ _ Ht Hn
       |id' t -> _ _ _ _ _ Ht Hn
       |id' t p0 s en d -> _ _ _ _ _ _ _ Ht Hn]; rewrite ?Ht, ?Hn; try done.
  - rewrite lookup_insert_ne by lia. split; [done|lia].
  - rewrite lookup_delete_ne by congruence. done.
  - rewrite lookup_insert_ne by congruence. done.
Qed.

(** The two things a callback of an armed timer can do. *)
Lemma tick_cases id w w' t :
  step clock (Tick id) w = Some w' →
  timers w !! id = Some t →
  (length (Timer.statusFlow t) ≤ Timer.currentIndex t
   ∧ w' = mkWorld (heap w) (parcels w) (parcelIdCounter w)
            (delete id (timers w)) (next_timer w) (outbox w) (clock_reads w))
  ∨ (∃ s p en,
       Timer.statusFlow t !! Timer.currentIndex t = Some s
       ∧ heap w !! Timer.parcel t = Some p
       ∧ Entry.status en = s
       ∧ heap w' = <[Timer.parcel t :=
                       transition s en (clock (S (clock_reads w))) p]> (heap w)
       ∧ timers w' = <[id := advance t]> (timers w)
       ∧ next_timer w' = next_timer w).
Proof.
  cbn [step]. intros Hstep Ht.
  destruct (decide (length (Timer.statusFlow t) ≤ Timer.currentIndex t))
    as [Hle|Hlt].
  { erewrite interval_callback_cancels in Hstep by done.
    left. split; [done|]. by injection Hstep as <-. }
  destruct (lookup_lt_is_Some_2 (Timer.statusFlow t) (Timer.currentIndex t))
    as [s Hs]; [lia|].
  destruct (heap w !! Timer.parcel t) as [p|] eqn:Hl.
  - erewrite interval_callback_applies in Hstep by done.
    injection Hstep as <-. right.
    exists s, p, (Entry.mk s (clock (clock_reads w))
                    (VString ("Auto-simulated: " +:+ s))).
    by cbn.
  - exfalso. revert Hstep. unfold interval_callback. exec. rewrite Ht.
    rewrite bool_decide_false by done. rewrite Hs. exec. by rewrite Hl.
Qed.

(** A callback of an armed timer whose parcel object exists does run. *)
Lemma tick_runs id w t :
  timers w !! id = Some t →
  is_Some (heap w !! Timer.parcel t) →
  is_Some (step clock (Tick id) w).
Proof.
  intros Ht [p Hl]. cbn [step].
  destruct (decide (length (Timer.statusFlow t) ≤ Timer.currentIndex t))
    as [Hle|Hlt].
  { by erewrite interval_callback_cancels. }
  destruct (lookup_lt_is_Some_2 (Timer.statusFlow t) (Timer.currentIndex t))
    as [s Hs]; [lia|].
  by erewrite interval_callback_applies.
Qed.

(** In a sound state every request is answered, and the callback of every
    armed timer runs: no handler dereferences a missing object. *)
Lemma step_progress e w :
  sound w →
  (∀ id, e = Tick id → is_Some (timers w !! id)) →
  is_Some (step clock e w).
Proof.
  intros (_ & Hstore & Htimers) Harmed.
  destruct e as [body|tn|tn body| |tn body|id]; cbn [step].
  - destruct (rejected body) eqn:Hr.
    + by rewrite createParcel_rejects.
    + by rewrite createParcel_accepts.
  - destruct (parcels w !! tn) as [l|] eqn:Htn.
    + destruct (lookup_lt_is_Some_2 (heap w) l) as [p Hl]; [by eapply Hstore|].
      unfold getParcel. exec. rewrite Htn. exec. by rewrite Hl.
    + unfold getParcel. exec. by rewrite Htn.
  - destruct (parcels w !! tn) as [l|] eqn:Htn.
    2:{ by rewrite updateStatus_not_found. }
    destruct (includes STATUSES.values (field body "status")) eqn:Hin.
    2:{ by erewrite updateStatus_rejects. }
    destruct (field body "status") as [| | | |s| |] eqn:Hs; try done.
    apply bool_decide_eq_true in Hin.
    destruct (lookup_lt_is_Some_2 (heap w) l) as [p Hl]; [by eapply Hstore|].
    by erewrite updateStatus_applies.
  - by destruct (listParcels_world w) as [r ->].
  - destruct (parcels w !! tn) as [l|] eqn:Htn.
    + destruct (converts_to_string (field body "speed")) eqn:Hsp.
      * by erewrite simulate_arms.
      * by erewrite simulate_throws.
    + by rewrite simulate_not_found.
  - destruct (Harmed id eq_refl) as [t Ht]. eapply tick_runs; [done|].
    apply lookup_lt_is_Some_2. by eapply Htimers.
Qed.

(** Hence the server never gets stuck: in every reachable state each
    request is answered and each armed timer can fire. *)
Lemma reachable_progress e w :
  reachable clock w →
  (∀ id, e = Tick id → is_Some (timers w !! id)) →
  is_Some (step clock e w).
Proof. intros [Hs _]%reachable_invariant. by apply step_progress. Qed.

(** *** Simulation runs *)

Lemma chosen_flow_length body : length (chosen_flow body) = 5.
Proof. unfold chosen_flow. by case_match. Qed.

(** Consecutive callbacks of one timer form such a stretch. *)
Lemma interleaved_ticks quiet id m n w0 w w' :
  interleaved clock quiet id m w0 w →
  run clock (replicate n (Tick id)) w = Some w' →
  interleaved clock quiet id (m + n) w0 w'.
Proof.
  revert m w. induction n as [|n IH]; intros m w Hrun; cbn [replicate run].
  - intros [= <-]. by rewrite Nat.add_0_r.
  - destruct (step clock (Tick id) w) as [w1|] eqn:Hstep; [|done].
    intros Hrest. rewrite Nat.add_succ_r, <-Nat.add_succ_l.
    eapply IH; [|done]. by eapply interleaved_tick.
Qed.

(** The timer of a run after [n] of its callbacks: armed with
    [currentIndex = n] up to and including [n = length flow], gone after
    one more. *)
Lemma run_timer quiet id n w0 w' tn l flow :
  interleaved clock quiet id n w0 w' →
  timers w0 !! id = Some (Timer.mk tn l flow 0) →
  id < next_timer w0 →
  is_Some (heap w0 !! l) →
  id < next_timer w'
  ∧ is_Some (heap w' !! l)
  ∧ n ≤ S (length flow)
  ∧ timers w' !! id
    = if decide (n ≤ length flow) then Some (Timer.mk tn l flow n) else None.
Proof.
  intros Hrun Ht0 Hfresh Hl0.
  induction Hrun as [w|n w w1 w2 _ IH Hstep|n w w1 w2 e _ IH Hne _ Hstep].
  - repeat split; [done|done|lia|]. by rewrite decide_True by lia.
  - destruct (IH Ht0 Hfresh Hl0) as (Hlt & Hl & Hn & Ht). clear IH.
    destruct (decide (n ≤ length flow)) as [Hle|Hgt].
    2:{ cbn [step] in Hstep. by rewrite interval_callback_unarmed in Hstep. }
    destruct (tick_cases _ _ _ _ Hstep Ht)
      as [[Hend ->]|(s & p & en & Hs & _ & _ & Hh & Ht' & Hn')];
      cbn [Timer.statusFlow Timer.currentIndex Timer.parcel] in *.
    + cbn. repeat split; [done|done|lia|].
      rewrite lookup_delete_eq. by rewrite decide_False by lia.
    + apply lookup_lt_Some in Hs as Hidx.
      rewrite Hh, Ht', Hn', lookup_insert_eq.
      repeat split; [done| |lia|].
      * by apply list_lookup_insert_is_Some.
      * by rewrite decide_True by lia.
  - destruct (IH Ht0 Hfresh Hl0) as (Hlt & Hl & Hn & Ht). clear IH.
    destruct (step_timer_frame _ _ _ id Hstep Hne Hlt) as [-> Hlt'].
    repeat split; try done. by eapply step_heap_allocated.
Qed.

(** The parcel of a run that nothing else moves: after [n] callbacks its
    history has grown by the first [n] statuses of the sequence. *)
Lemma run_heap id n w0 w' tn l flow p :
  interleaved clock (leaves l) id n w0 w' →
  timers w0 !! id = Some (Timer.mk tn l flow 0) →
  id < next_timer w0 →
  heap w0 !! l = Some p →
  ∃ p',
    heap w' !! l = Some p'
    ∧ statuses (Parcel.status_history p')
      = statuses (Parcel.status_history p) ++ take n flow
    ∧ (STATUSES.DELIVERED ∉ take n flow →
       Parcel.delivered_at p' = Parcel.delivered_at p).
Proof.
  intros Hrun Ht0 Hfresh Hl0.
  induction Hrun as [w|n w w1 w2 Hrun IH Hstep|n w w1 w2 e _ IH _ Hq Hstep].
  - exists p. by rewrite take_0, app_nil_r.
  - destruct (IH Ht0 Hfresh Hl0) as (p1 & Hl1 & Hhist & Hdel). clear IH.
    destruct (run_timer _ _ _ _ _ _ _ _ Hrun Ht0 Hfresh (mk_is_Some _ _ Hl0))
      as (_ & _ & _ & Ht).
    destruct (decide (n ≤ length flow)) as [Hle|Hgt].
    2:{ cbn [step] in Hstep. by rewrite interval_callback_unarmed in Hstep. }
    destruct (tick_cases _ _ _ _ Hstep Ht)
      as [[Hend ->]|(s & p1' & en & Hs & Hl1' & Hen & Hh & _ & _)];
      cbn [Timer.statusFlow Timer.currentIndex Timer.parcel] in *.
    + exists p1. cbn. rewrite (take_ge flow (S n)) by lia.
      rewrite (take_ge flow n) in Hhist, Hdel by lia. done.
    + assert (p1' = p1) as -> by congruence.
      eexists. rewrite Hh.
      rewrite list_lookup_insert_eq by (by eapply lookup_lt_Some).
      split; [done|]. rewrite (take_S_r _ _ _ Hs).
      rewrite transition_history, transition_delivered_at.
      unfold statuses in *. rewrite fmap_app, Hhist. cbn.
      rewrite Hen, <-app_assoc.
      split; [done|].
      intros [Hnot Hs']%not_elem_of_app.
      rewrite Hdel by done.
      destruct (String.eqb_spec s STATUSES.DELIVERED) as [->|_]; [|done].
      exfalso. apply Hs'. by apply list_elem_of_singleton.
  - destruct (IH Ht0 Hfresh Hl0) as (p1 & Hl1 & Hhist & Hdel). clear IH.
    exists p1. split; [|done]. by eapply step_heap_frame.
Qed.

(** ** The claims *)

Lemma accepted_when_truthy body :
  truthy (field body "order_id") = true →
  truthy (field body "customer_name") = true →
  truthy (field body "customer_phone") = true →
  truthy (field body "customer_address") = true →
  truthy (field body "price") = true →
  rejected body = false.
Proof. unfold rejected. by intros -> -> -> -> ->. Qed.

Lemma field_absent body k :
  body !! k = None → truthy (field body k) = false.
Proof. unfold field. by intros ->. Qed.

(** C2: a manual update of a stored parcel whose [status] is a string outside
    the status enum answers 400 "Invalid status" and leaves the whole state
    as it was, so the parcel's status, history and delivered_at are the same
    before and after. *)
Theorem invalid_status_leaves_parcel_unchanged w tn body l s :
  parcels w !! tn = Some l →
  field body "status" = VString s →
  s ∉ STATUSES.values →
  updateStatus clock tn body w
  = Some (mkResponse 400 (Failure "Invalid status"), w).
Proof.
  intros Htn Hs Hout. eapply updateStatus_rejects; [done|].
  rewrite Hs. cbn. by apply bool_decide_eq_false.
Qed.

(** C7: a creation request that lacks one of order_id, customer_name,
    customer_phone, customer_address, price answers 400 and leaves the state
    as it was; a listing made right after gives what a listing made before
    would have given. *)
Theorem missing_required_field_rejected body w :
  body !! "order_id" = None ∨ body !! "customer_name" = None
  ∨ body !! "customer_phone" = None ∨ body !! "customer_address" = None
  ∨ body !! "price" = None →
  createParcel clock body w
  = Some (mkResponse 400 (Failure "Missing required fields"), w)
  ∧ (createParcel clock body ≫= λ _, listParcels) w = listParcels w.
Proof.
  intros H.
  assert (Hr : rejected body = true).
  { unfold rejected.
    destruct H as [H|[H|[H|[H|H]]]]; apply field_absent in H; rewrite H;
      cbn; by rewrite ?orb_true_r. }
  assert (Hc := createParcel_rejects body w Hr). split; [done|].
  unfold mbind at 1, M_bind at 1. by rewrite Hc.
Qed.

(** C10: the required-field test is on truthiness: a creation request in
    which all five required fields are present but one of them is falsy
    (a zero price, an empty customer_name) answers 400 "Missing required
    fields" and creates nothing. *)
Theorem falsy_required_field_rejected body w :
  is_Some (body !! "order_id") →
  is_Some (body !! "customer_name") →
  is_Some (body !! "customer_phone") →
  is_Some (body !! "customer_address") →
  is_Some (body !! "price") →
  truthy (field body "order_id") = false
  ∨ truthy (field body "customer_name") = false
  ∨ truthy (field body "customer_phone") = false
  ∨ truthy (field body "customer_address") = false
  ∨ truthy (field body "price") = false →
  createParcel clock body w
  = Some (mkResponse 400 (Failure "Missing required fields"), w).
Proof.
  intros _ _ _ _ _ H. apply createParcel_rejects. unfold rejected.
  destruct H as [H|[H|[H|[H|H]]]]; rewrite H; cbn; by rewrite ?orb_true_r.
Qed.

(** C6, amended: a creation request whose five required fields are all
    truthy answers 201 with the tracking number "YDN" followed by the
    current counter value; the Map then holds under that number a parcel
    with status PENDING_PICKUP, a one-entry history whose entry is
    PENDING_PICKUP, and cod_amount equal to price.  The counter never
    decreases, and grows by one as long as it is below 2^53. *)
Theorem creation_stores_pending_parcel body w :
  truthy (field body "order_id") = true →
  truthy (field body "customer_name") = true →
  truthy (field body "customer_phone") = true →
  truthy (field body "customer_address") = true →
  truthy (field body "price") = true →
  ∃ w' p en,
    createParcel clock body w
    = Some (mkResponse 201
              (Created "Parcel created successfully"
                 ("YDN" +:+ Number_toString (parcelIdCounter w))
                 STATUSES.PENDING_PICKUP "2-3 business days"), w')
    ∧ stored w' ("YDN" +:+ Number_toString (parcelIdCounter w)) = Some p
    ∧ Parcel.tracking_number p = "YDN" +:+ Number_toString (parcelIdCounter w)
    ∧ Parcel.status p = STATUSES.PENDING_PICKUP
    ∧ Parcel.status_history p = [en]
    ∧ Entry.status en = STATUSES.PENDING_PICKUP
    ∧ Parcel.price p = field body "price"
    ∧ Parcel.cod_amount p = Parcel.price p
    ∧ (parcelIdCounter w ≤ parcelIdCounter w')%Z
    ∧ ((parcelIdCounter w < MAX_EXACT)%Z →
       parcelIdCounter w' = (parcelIdCounter w + 1)%Z).
Proof.
  intros H1 H2 H3 H4 H5.
  pose proof (createParcel_accepts body w
                (accepted_when_truthy body H1 H2 H3 H4 H5)) as Hc.
  cbn zeta in Hc. eexists _, _, _. split; [exact Hc|].
  unfold stored. cbn [parcels heap parcelIdCounter].
  rewrite lookup_insert_eq. cbn.
  rewrite lookup_app_r, Nat.sub_diag by lia. cbn.
  repeat split; [apply increment_ge|apply increment_exact].
Qed.

(** C9, amended: a creation request that is accepted hands a webhook to the
    network during the creation itself exactly when its webhook_url is
    truthy.  Then it is one webhook: event "parcel.status.updated", sent to
    that URL, reporting the status PENDING_PICKUP, the one-entry creation
    history and no delivered_at.  With a webhook_url that is absent or
    present but falsy, the creation sends nothing. *)
Theorem creation_notifies_webhook body w :
  truthy (field body "order_id") = true →
  truthy (field body "customer_name") = true →
  truthy (field body "customer_phone") = true →
  truthy (field body "customer_address") = true →
  truthy (field body "price") = true →
  ∃ r w',
    createParcel clock body w = Some (r, w')
    ∧ code r = 201%Z
    ∧ (truthy (field body "webhook_url") = true →
       ∃ hook en,
         outbox w' = outbox w ++ [hook]
         ∧ Webhook.url hook = field body "webhook_url"
         ∧ Webhook.event hook = "parcel.status.updated"
         ∧ Webhook.tracking_number (Webhook.payload hook)
           = "YDN" +:+ Number_toString (parcelIdCounter w)
         ∧ Webhook.status (Webhook.payload hook) = STATUSES.PENDING_PICKUP
         ∧ Webhook.status_history (Webhook.payload hook) = [en]
         ∧ Entry.status en = STATUSES.PENDING_PICKUP
         ∧ Webhook.delivered_at (Webhook.payload hook) = None)
    ∧ (truthy (field body "webhook_url") = false → outbox w' = outbox w).
Proof.
  intros H1 H2 H3 H4 H5.
  pose proof (createParcel_accepts body w
                (accepted_when_truthy body H1 H2 H3 H4 H5)) as Hc.
  cbn zeta in Hc. eexists _, _. split; [exact Hc|]. split; [done|].
  cbn [outbox]. split; intros Hurl; rewrite Hurl; [|done].
  eexists _, _. by cbn.
Qed.

Lemma step_requested e w l s p :
  requested e w = Some (l, s) →
  heap w !! l = Some p →
  ∃ w' en,
    step clock e w = Some w'
    ∧ Entry.status en = s
    ∧ Entry.timestamp en = clock (clock_reads w)
    ∧ heap w' = <[l := transition s en (clock (S (clock_reads w))) p]> (heap w).
Proof.
  intros Hreq Hl. destruct e as [| |tn body| | |id]; try done; cbn in Hreq.
  - destruct (parcels w !! tn) as [l'|] eqn:Htn; [cbn in Hreq|done].
    destruct (field body "status") as [| | | |s'| |] eqn:Hs; try done.
    case_bool_decide as Hin; [|done]. injection Hreq as -> ->.
    cbn [step]. erewrite updateStatus_applies by done.
    eexists _, (Entry.mk s _ _). by cbn.
  - destruct (timers w !! id) as [t|] eqn:Ht; [cbn in Hreq|done].
    destruct (Timer.statusFlow t !! Timer.currentIndex t) as [s'|] eqn:Hs;
      [cbn in Hreq|done].
    injection Hreq as <- ->.
    cbn [step]. erewrite interval_callback_applies by done.
    eexists _, (Entry.mk s _ _). by cbn.
Qed.

(** C1, amended: every accepted DELIVERED transition, manual or by a
    simulation tick, assigns delivered_at the clock reading taken in that
    transition, whether or not delivered_at was set before; a transition to
    any other status leaves delivered_at as it was. *)
Theorem delivered_at_follows_each_delivery e w l s p :
  requested e w = Some (l, s) →
  heap w !! l = Some p →
  ∃ w' p',
    step clock e w = Some w'
    ∧ heap w' !! l = Some p'
    ∧ Parcel.status p' = s
    ∧ Parcel.delivered_at p'
      = if String.eqb s STATUSES.DELIVERED
        then Some (clock (S (clock_reads w)))
        else Parcel.delivered_at p.
Proof.
  intros Hreq Hl.
  destruct (step_requested e w l s p Hreq Hl) as (w' & en & Hstep & _ & _ & Hh).
  eexists w', _. split; [done|]. rewrite Hh.
  rewrite list_lookup_insert_eq by (by eapply lookup_lt_Some).
  split; [done|]. by rewrite transition_status, transition_delivered_at.
Qed.

Lemma run_reachable es w w' :
  reachable clock w → run clock es w = Some w' → reachable clock w'.
Proof.
  revert w. induction es as [|e es IH]; intros w Hw; cbn.
  - by intros [= <-].
  - destruct (step clock e w) as [w1|] eqn:Hstep; [|done].
    apply IH. by eapply reachable_step.
Qed.

Lemma stored_Some w tn p :
  stored w tn = Some p ↔ ∃ l, parcels w !! tn = Some l ∧ heap w !! l = Some p.
Proof.
  unfold stored. destruct (parcels w !! tn) as [l|]; cbn.
  - split; [eauto|]. by intros (l' & [= <-] & ?).
  - split; [done|]. by intros (l' & ? & _).
Qed.

(** C3: in every state the server can reach, by creations, manual updates,
    simulation ticks and the other requests in any order, each parcel of the
    store has as status the status of the last entry of its history. *)
Theorem status_is_last_history_entry w tn p :
  reachable clock w →
  stored w tn = Some p →
  last (statuses (Parcel.status_history p)) = Some (Parcel.status p).
Proof.
  intros [(Hheap & _ & _) _]%reachable_invariant (l & _ & Hl)%stored_Some.
  by apply (Hheap l p).
Qed.

(** C8: in every reachable state each stored parcel has a non-empty history
    whose first entry is PENDING_PICKUP; every event leaves the history of
    every parcel object as it was or appends to it; and, as long as the
    counter is below 2^53, the same holds for the parcel found under each
    tracking number. *)
Theorem history_is_append_only w :
  reachable clock w →
  (∀ tn p, stored w tn = Some p →
     ∃ en rest, Parcel.status_history p = en :: rest
                ∧ Entry.status en = STATUSES.PENDING_PICKUP)
  ∧ (∀ e w' l p, step clock e w = Some w' → heap w !! l = Some p →
       ∃ p' ext, heap w' !! l = Some p'
                 ∧ Parcel.status_history p' = Parcel.status_history p ++ ext)
  ∧ (∀ e w' tn p, (parcelIdCounter w < MAX_EXACT)%Z →
       step clock e w = Some w' → stored w tn = Some p →
       ∃ p' ext, stored w' tn = Some p'
                 ∧ Parcel.status_history p' = Parcel.status_history p ++ ext).
Proof.
  intros [(Hheap & _ & _) Huniq]%reachable_invariant. split; [|split].
  - intros tn p (l & _ & Hl)%stored_Some.
    destruct (Hheap l p Hl) as [_ Hstart]. unfold starts_pending, statuses in Hstart.
    destruct (Parcel.status_history p) as [|en rest]; [done|].
    exists en, rest. split; [done|]. by injection Hstart.
  - intros e w' l p Hstep%step_effect Hl. by eapply effect_extends.
  - intros e w' tn p Hc Hstep%step_effect (l & Htn & Hl)%stored_Some.
    destruct (effect_extends e w w' l p Hstep Hl) as (p' & ext & Hl' & Hext).
    exists p', ext. split; [|done]. apply stored_Some. exists l.
    split; [|done]. by eapply effect_store_stable.
Qed.

(** C4, amended: in every simulation run (one is started for a stored
    parcel when [speed] converts to a property key) the callback that applies
    the last status of the sequence leaves the timer armed; the next callback
    of the timer applies nothing, sends nothing and cancels the timer; after
    that one no callback of the timer runs.  Here [n] counts the callbacks of
    the run's timer that have run, whatever else the server did in
    between. *)
Theorem timer_cancelled_one_tick_after_last_status w tn body l :
  parcels w !! tn = Some l →
  is_Some (heap w !! l) →
  converts_to_string (field body "speed") = true →
  ∃ r w0,
    simulate tn body w = Some (r, w0)
    ∧ ∀ n w', interleaved clock any_event (next_timer w) n w0 w' →
        n ≤ 6
        ∧ (n < 5 →
           ∃ s w'' p'',
             chosen_flow body !! n = Some s
             ∧ step clock (Tick (next_timer w)) w' = Some w''
             ∧ heap w'' !! l = Some p''
             ∧ Parcel.status p'' = s
             ∧ is_Some (timers w'' !! next_timer w))
        ∧ (n = 5 →
           is_Some (timers w' !! next_timer w)
           ∧ step clock (Tick (next_timer w)) w'
             = Some (mkWorld (heap w') (parcels w') (parcelIdCounter w')
                       (delete (next_timer w) (timers w')) (next_timer w')
                       (outbox w') (clock_reads w')))
        ∧ (n = 6 →
           timers w' !! next_timer w = None
           ∧ step clock (Tick (next_timer w)) w' = None).
Proof.
  intros Htn Hl Hsp. eexists _, _. split; [by apply simulate_arms|].
  intros n w' Hrun.
  pose proof (chosen_flow_length body) as Hlen.
  eapply run_timer in Hrun as (_ & [p' Hl'] & Hn & Ht);
    [|by cbn; apply lookup_insert_eq|cbn; lia|done].
  rewrite Hlen in Hn, Ht. split; [lia|]. split; [|split].
  - intros Hlt. rewrite decide_True in Ht by lia.
    destruct (lookup_lt_is_Some_2 (chosen_flow body) n) as [s Hs]; [lia|].
    exists s. cbn [step].
    erewrite interval_callback_applies by done. eexists _, _.
    split; [done|]. split; [done|]. cbn.
    rewrite list_lookup_insert_eq by (by eapply lookup_lt_Some).
    split; [done|]. split; [apply transition_status|].
    by rewrite lookup_insert_eq.
  - intros ->. rewrite decide_True in Ht by lia. split; [by rewrite Ht|].
    cbn [step]. erewrite interval_callback_cancels; [done..|]. cbn. lia.
  - intros ->. rewrite decide_False in Ht by lia. split; [done|].
    cbn [step]. by rewrite interval_callback_unarmed.
Qed.

(** C5: when a simulation with scenario "failed" is started on a stored
    parcel (its [speed] converts to a property key, so the request is
    answered 200) and nothing else moves that parcel, then after [n] callbacks of
    the run its history is the earlier history followed by the first [n] of
    COLLECTED, IN_TRANSIT, OUT_FOR_DELIVERY, FAILED_DELIVERY, RETURNED (all
    five from the fifth callback on), the run adds no DELIVERED entry and
    delivered_at is as it was; and each of the six callbacks does run. *)
Theorem failed_scenario_history w tn body l p :
  parcels w !! tn = Some l →
  heap w !! l = Some p →
  field body "scenario" = VString "failed" →
  converts_to_string (field body "speed") = true →
  ∃ r w0,
    simulate tn body w = Some (r, w0)
    ∧ ∀ n w', interleaved clock (leaves l) (next_timer w) n w0 w' →
        n ≤ 6
        ∧ (n < 6 → is_Some (step clock (Tick (next_timer w)) w'))
        ∧ ∃ p',
            heap w' !! l = Some p'
            ∧ statuses (Parcel.status_history p')
              = statuses (Parcel.status_history p)
                ++ take n [STATUSES.COLLECTED; STATUSES.IN_TRANSIT;
                           STATUSES.OUT_FOR_DELIVERY;
                           STATUSES.FAILED_DELIVERY; STATUSES.RETURNED]
            ∧ Parcel.delivered_at p' = Parcel.delivered_at p
            ∧ (STATUSES.DELIVERED ∉ statuses (Parcel.status_history p) →
               STATUSES.DELIVERED ∉ statuses (Parcel.status_history p')).
Proof.
  intros Htn Hl Hsc Hsp. eexists _, _. split; [by apply simulate_arms|].
  intros n w' Hrun.
  assert (Hflow : chosen_flow body = flow_failed)
    by (unfold chosen_flow; by rewrite Hsc).
  rewrite Hflow in Hrun.
  assert (Hnever : ∀ k, STATUSES.DELIVERED ∉ take k flow_failed).
  { intros k Hin%(subseteq_take k flow_failed). revert Hin.
    refine (bool_decide_eq_true_1 (STATUSES.DELIVERED ∉ flow_failed) _).
    vm_compute. reflexivity. }
  pose proof Hrun as Hrun'.
  eapply run_timer in Hrun as (_ & _ & Hn & Ht);
    [|by cbn; apply lookup_insert_eq|cbn; lia|done].
  eapply run_heap in Hrun' as (p' & Hl' & Hhist & Hdel);
    [|by cbn; apply lookup_insert_eq|cbn; lia|done].
  cbn in Hn. split; [lia|]. split.
  - intros Hlt. rewrite decide_True in Ht by (cbn; lia).
    eapply tick_runs; [exact Ht|]. cbn. by rewrite Hl'.
  - exists p'. split; [done|]. split; [done|]. split; [by apply Hdel|].
    rewrite Hhist. intros Hold [?|Hnew]%elem_of_app; [done|].
    by eapply Hnever.
Qed.

(** ** Further properties of the handlers *)

Lemma transition_same_identity s en d p :
  same_identity p (transition s en d p).
Proof.
  unfold same_identity, transition.
  by destruct (String.eqb s STATUSES.DELIVERED).
Qed.

Lemma flows_in_enum flow s :
  flow = flow_failed ∨ flow = flow_default →
  s ∈ flow → s ∈ STATUSES.values.
Proof.
  intros [->| ->] Hs; revert s Hs; apply Forall_forall;
    repeat constructor;
    refine (bool_decide_eq_true_1 (_ ∈ STATUSES.values) _); vm_compute;
    reflexivity.
Qed.

Lemma new_parcel_kept body c created ts :
  rejected body = false → kept (new_parcel body c created ts).
Proof.
  unfold rejected. intros Hr.
  repeat (apply orb_false_elim in Hr as [Hr ?]).
  apply negb_false_iff in Hr.
  repeat match goal with H : negb _ = false |- _ =>
    apply negb_false_iff in H end.
  unfold kept. cbn. repeat split; try done.
  - refine (bool_decide_eq_true_1 (_ ∈ STATUSES.values) _). vm_compute.
    reflexivity.
  - intros s Heq%list_elem_of_singleton. subst s.
    refine (bool_decide_eq_true_1 (_ ∈ STATUSES.values) _). vm_compute.
    reflexivity.
  - intros Hd%list_elem_of_singleton. discriminate Hd.
Qed.

Lemma transition_kept s en d p :
  Entry.status en = s → s ∈ STATUSES.values →
  kept p → kept (transition s en d p).
Proof.
  intros Hen Hs (Hcod & H1 & H2 & H3 & H4 & H5 & _ & Hall & Hdel).
  destruct (transition_same_identity s en d p)
    as (_ & E1 & E2 & E3 & E4 & _ & _ & _ & E5 & E6 & _ & _).
  unfold kept.
  rewrite E1, E2, E3, E4, E5, E6, transition_status, transition_history,
    transition_delivered_at.
  unfold statuses in *. rewrite fmap_app. cbn. rewrite Hen.
  repeat split; try done.
  - intros s' [?|Heq%list_elem_of_singleton]%elem_of_app; [eauto|by subst].
  - destruct (String.eqb_spec s STATUSES.DELIVERED) as [->|Hne].
    + intros _. apply elem_of_app. right. by apply list_elem_of_singleton.
    + intros H. apply elem_of_app. left. by apply Hdel.
  - destruct (String.eqb_spec s STATUSES.DELIVERED) as [->|Hne]; [done|].
    intros [?|Heq%list_elem_of_singleton]%elem_of_app; [by apply Hdel|].
    by destruct Hne.
Qed.

Lemma create_cases body w w' :
  step clock (POST_parcels body) w = Some w' →
  (rejected body = true ∧ w' = w)
  ∨ (rejected body = false
     ∧ heap w' = heap w ++ [new_parcel body (parcelIdCounter w)
                              (clock (clock_reads w))
                              (clock (S (clock_reads w)))]
     ∧ parcels w' = <[tracking (parcelIdCounter w) := length (heap w)]> (parcels w)
     ∧ timers w' = timers w).
Proof.
  cbn [step]. destruct (rejected body) eqn:Hr.
  - rewrite createParcel_rejects by done. intros [= <-]. by left.
  - rewrite createParcel_accepts by done. intros [= <-]. by right.
Qed.

Lemma insert_transition_lookup (h : list Parcel.t) l0 p0 s en d l p' :
  h !! l0 = Some p0 →
  <[l0 := transition s en d p0]> h !! l = Some p' →
  ∃ p, h !! l = Some p
       ∧ Parcel.tracking_number p' = Parcel.tracking_number p
       ∧ (p' = p ∨ l = l0 ∧ p = p0 ∧ p' = transition s en d p0).
Proof.
  intros Hl0. destruct (decide (l0 = l)) as [->|Hne].
  - rewrite list_lookup_insert_eq by (by eapply lookup_lt_Some).
    intros [= <-]. exists p0. split; [done|]. split; [|by right].
    apply transition_same_identity.
  - rewrite list_lookup_insert_ne by done. intros Hl. exists p'. eauto.
Qed.

Lemma step_well_kept e w w' :
  sound w → well_kept w → step clock e w = Some w' → well_kept w'.
Proof.
  intros (_ & Hstore & Htimers) (Hk & Hkey & Htm) Hstep.
  assert (Hc : (∃ body, e = POST_parcels body) ∨ ∀ body, e ≠ POST_parcels body)
    by (destruct e; eauto; by right).
  destruct Hc as [[body ->]|Hnc].
  { apply create_cases in Hstep as [[_ ->]|(Hr & Hh & Hp & Ht)]; [done|].
    split; [|split].
    - intros l p. rewrite Hh. intros [H|[_ H]]%lookup_app_Some; [eauto|].
      apply list_lookup_singleton_Some in H as [_ <-].
      by apply new_parcel_kept.
    - intros tn l p. rewrite Hp, Hh.
      intros [[<- <-]|[_ Htn]]%lookup_insert_Some.
      + rewrite lookup_app_r, Nat.sub_diag by lia. by intros [= <-].
      + rewrite lookup_app_l by (by eapply Hstore). by apply Hkey.
    - intros id t. rewrite Ht, Hh. intros Hid. split; [by eapply Htm|].
      intros p. rewrite lookup_app_l by (by eapply Htimers).
      by eapply Htm. }
  apply step_effect in Hstep.
  destruct Hstep as
    [_ ->|body created ts -> _ _ _ _ _
       |tn body l0 p0 s en d _ Htn Hl0 _ Hin He Hh Hp _ Ht _
       |tn body l0 _ Htn Hh Hp _ Ht _
       |id t _ _ _ Hh Hp _ Ht _
       |id t p0 s en d _ Hid Hs Hl0 He Hh Hp _ Ht _]; [done|..].
  - by destruct (Hnc body).
  - (* manual update *)
    split; [|split].
    + intros l p. rewrite Hh.
      intros (p1 & Hl & _ & [->|(-> & -> & ->)])%insert_transition_lookup;
        [eauto|by apply transition_kept; eauto|done].
    + intros tn' l p. rewrite Hp, Hh.
      intros Htn' (p1 & Hl & -> & _)%insert_transition_lookup; eauto.
    + intros id t. rewrite Ht, Hh. intros Hid. split; [by eapply Htm|].
      intros p (p1 & Hl & -> & _)%insert_transition_lookup; [|done].
      by eapply Htm.
  - (* arming a timer *)
    unfold well_kept. rewrite Hh, Hp, Ht. split; [done|split; [done|]].
    intros id t [[_ <-]|[_ Hid]]%lookup_insert_Some; [|by eapply Htm].
    cbn. split; [|by eauto].
    unfold chosen_flow. case_match; eauto.
  - (* cancelling a timer *)
    unfold well_kept. rewrite Hh, Hp, Ht. split; [done|split; [done|]].
    intros id' t' [_ Hid]%lookup_delete_Some. by eapply Htm.
  - (* timer callback *)
    destruct (Htm _ _ Hid) as [Hflow Hown].
    assert (Hin : s ∈ STATUSES.values).
    { eapply flows_in_enum; [done|]. by eapply list_elem_of_lookup_2. }
    split; [|split].
    + intros l p. rewrite Hh.
      intros (p1 & Hl & _ & [->|(-> & -> & ->)])%insert_transition_lookup;
        [eauto|by apply transition_kept; eauto|done].
    + intros tn' l p. rewrite Hp, Hh.
      intros [[<- <-]|[_ Htn']]%lookup_insert_Some
        (p1 & Hl & -> & _)%insert_transition_lookup; eauto.
    + intros id' t'. rewrite Ht, Hh.
      intros [[<- <-]|[_ Hid']]%lookup_insert_Some; cbn.
      * split; [done|].
        intros p (p1 & Hl & -> & _)%insert_transition_lookup; eauto.
      * split; [by eapply Htm|].
        intros p (p1 & Hl & -> & _)%insert_transition_lookup; [|done].
        by eapply Htm.
Qed.

Lemma reachable_well_kept w :
  reachable clock w → well_kept w.
Proof.
  induction 1 as [|e w w' Hw IH Hstep].
  - repeat split; cbn; intros; simplify_map_eq; by simplify_list_eq.
  - apply reachable_invariant in Hw as [Hs _]. by eapply step_well_kept.
Qed.

(** X1: a tracking number the Map does not hold gets 404 "Parcel not found"
    from the tracking, update and simulate handlers, whatever the body (an
    invalid status included), and nothing changes: no timer is armed. *)
Theorem unknown_tracking_number_not_found w tn :
  parcels w !! tn = None →
  getParcel tn w = Some (mkResponse 404 (Failure "Parcel not found"), w)
  ∧ (∀ body, updateStatus clock tn body w
             = Some (mkResponse 404 (Failure "Parcel not found"), w))
  ∧ (∀ body, simulate tn body w
             = Some (mkResponse 404 (Failure "Parcel not found"), w)).
Proof.
  intros H. split; [|split].
  - unfold getParcel. exec. by rewrite H.
  - intros body. by apply updateStatus_not_found.
  - intros body. by apply simulate_not_found.
Qed.

(** X2: an accepted creation stores the request's fields, with "Tlemcen"
    for a falsy wilaya or commune and the empty array for a falsy
    product_list, stamps created_at with the first clock reading and leaves
    delivered_at unset; tracking the returned number right away answers 200
    with those fields, status PENDING_PICKUP and the one creation entry. *)
Theorem creation_round_trip body w :
  truthy (field body "order_id") = true →
  truthy (field body "customer_name") = true →
  truthy (field body "customer_phone") = true →
  truthy (field body "customer_address") = true →
  truthy (field body "price") = true →
  ∃ w' p,
    createParcel clock body w
    = Some (mkResponse 201
              (Created "Parcel created successfully"
                 (tracking (parcelIdCounter w)) STATUSES.PENDING_PICKUP
                 "2-3 business days"), w')
    ∧ stored w' (tracking (parcelIdCounter w)) = Some p
    ∧ Parcel.customer_phone p = field body "customer_phone"
    ∧ Parcel.wilaya p
      = (if truthy (field body "wilaya") then field body "wilaya"
         else VString "Tlemcen")
    ∧ Parcel.commune p
      = (if truthy (field body "commune") then field body "commune"
         else VString "Tlemcen")
    ∧ Parcel.product_list p
      = (if truthy (field body "product_list") then field body "product_list"
         else VArray [])
    ∧ Parcel.webhook_url p = field body "webhook_url"
    ∧ Parcel.created_at p = clock (clock_reads w)
    ∧ Parcel.delivered_at p = None
    ∧ getParcel (tracking (parcelIdCounter w)) w'
      = Some (mkResponse 200
                (Found (tracking (parcelIdCounter w)) (field body "order_id")
                   STATUSES.PENDING_PICKUP (field body "customer_name")
                   (field body "customer_address") (field body "price")
                   [Entry.mk STATUSES.PENDING_PICKUP
                      (clock (S (clock_reads w)))
                      (VString "Parcel created and awaiting pickup")]), w').
Proof.
  intros H1 H2 H3 H4 H5.
  pose proof (createParcel_accepts body w
                (accepted_when_truthy body H1 H2 H3 H4 H5)) as Hc.
  cbn zeta in Hc. eexists _, _. split; [exact Hc|].
  unfold stored, getParcel. exec. fold (tracking (parcelIdCounter w)).
  rewrite lookup_insert_eq. cbn.
  rewrite lookup_app_r, Nat.sub_diag by lia. cbn.
  by repeat split.
Qed.

(** X3: in every reachable state, tracking a stored parcel answers 200 with
    the requested tracking number and the parcel's own order_id, status,
    customer_name, customer_address, cod_amount and status_history, entry for
    entry, and changes nothing. *)
Theorem tracked_view_matches_store w tn p :
  reachable clock w →
  stored w tn = Some p →
  getParcel tn w
  = Some (mkResponse 200
            (Found tn (Parcel.order_id p) (Parcel.status p)
               (Parcel.customer_name p) (Parcel.customer_address p)
               (Parcel.cod_amount p) (Parcel.status_history p)), w).
Proof.
  intros Hw Hst. apply reachable_well_kept in Hw as (_ & Hkey & _).
  apply stored_Some in Hst as (l & Htn & Hl).
  unfold getParcel. exec. rewrite Htn. exec. rewrite Hl.
  by rewrite (Hkey tn l p Htn Hl).
Qed.

(** X4: a manual update of a stored parcel to any of the nine statuses is
    accepted whatever the parcel's current status: it answers 200 with the
    new status, the parcel takes that status, and exactly one entry is
    pushed, carrying the status, the clock reading and the request's note
    when that is truthy, "Status updated to <status>" otherwise. *)
Theorem accepted_update_appends_entry w tn body l p s :
  parcels w !! tn = Some l →
  heap w !! l = Some p →
  field body "status" = VString s →
  s ∈ STATUSES.values →
  ∃ w' p',
    updateStatus clock tn body w
    = Some (mkResponse 200 (Updated "Status updated successfully" tn s), w')
    ∧ stored w' tn = Some p'
    ∧ Parcel.status p' = s
    ∧ Parcel.status_history p'
      = Parcel.status_history p
        ++ [Entry.mk s (clock (clock_reads w))
              (if truthy (field body "note") then field body "note"
               else VString ("Status updated to " +:+ s))].
Proof.
  intros Htn Hl Hs Hin.
  pose proof (updateStatus_applies tn body w l p s Htn Hl Hs Hin) as Hc.
  cbn zeta in Hc. eexists _, _. split; [exact Hc|].
  unfold stored. cbn [parcels heap]. rewrite Htn. cbn.
  rewrite list_lookup_insert_eq by (by eapply lookup_lt_Some).
  split; [done|]. by rewrite transition_status, transition_history.
Qed.

(** X5: a status change that is applied, by a manual update or by a
    simulation tick, to a parcel whose webhook_url is truthy hands exactly
    one webhook to the network, sent to that URL and built from the parcel as
    the change left it: the new status, the history with the new entry, and
    the delivered_at just assigned if the status is DELIVERED.  With a falsy
    webhook_url nothing is sent. *)
Theorem transition_notifies_webhook e w l s p :
  requested e w = Some (l, s) →
  heap w !! l = Some p →
  ∃ w' p',
    step clock e w = Some w'
    ∧ heap w' !! l = Some p'
    ∧ (truthy (Parcel.webhook_url p) = false → outbox w' = outbox w)
    ∧ (truthy (Parcel.webhook_url p) = true →
       ∃ hook,
         outbox w' = outbox w ++ [hook]
         ∧ Webhook.url hook = Parcel.webhook_url p
         ∧ Webhook.event hook = "parcel.status.updated"
         ∧ Webhook.tracking_number (Webhook.payload hook)
           = Parcel.tracking_number p
         ∧ Webhook.order_id (Webhook.payload hook) = Parcel.order_id p
         ∧ Webhook.cod_amount (Webhook.payload hook) = Parcel.cod_amount p
         ∧ Webhook.status (Webhook.payload hook) = s
         ∧ Webhook.status_history (Webhook.payload hook)
           = Parcel.status_history p'
         ∧ Webhook.delivered_at (Webhook.payload hook)
           = Parcel.delivered_at p').
Proof.
  intros Hreq Hl.
  assert (Hfin : ∀ w' en d ts,
    heap w' = <[l := transition s en d p]> (heap w) →
    outbox w' = (if truthy (Parcel.webhook_url p)
                 then outbox w ++ [webhook_of (Parcel.webhook_url p) ts
                                     (transition s en d p)]
                 else outbox w) →
    ∃ p', heap w' !! l = Some p'
      ∧ (truthy (Parcel.webhook_url p) = false → outbox w' = outbox w)
      ∧ (truthy (Parcel.webhook_url p) = true →
         ∃ hook,
           outbox w' = outbox w ++ [hook]
           ∧ Webhook.url hook = Parcel.webhook_url p
           ∧ Webhook.event hook = "parcel.status.updated"
           ∧ Webhook.tracking_number (Webhook.payload hook)
             = Parcel.tracking_number p
           ∧ Webhook.order_id (Webhook.payload hook) = Parcel.order_id p
           ∧ Webhook.cod_amount (Webhook.payload hook) = Parcel.cod_amount p
           ∧ Webhook.status (Webhook.payload hook) = s
           ∧ Webhook.status_history (Webhook.payload hook)
             = Parcel.status_history p'
           ∧ Webhook.delivered_at (Webhook.payload hook)
             = Parcel.delivered_at p')).
  { intros w' en d ts Hh Ho. eexists. rewrite Hh.
    rewrite list_lookup_insert_eq by (by eapply lookup_lt_Some).
    split; [done|]. rewrite Ho.
    destruct (transition_same_identity s en d p)
      as (E1 & E2 & _ & _ & _ & _ & _ & _ & _ & E3 & _ & _).
    split; intros Hurl; rewrite Hurl; [done|].
    eexists. split; [done|]. cbn.
    by rewrite E1, E2, E3, transition_status. }
  destruct e as [| |tn body| | |id]; try done; cbn in Hreq.
  - destruct (parcels w !! tn) as [l'|] eqn:Htn; [cbn in Hreq|done].
    destruct (field body "status") as [| | | |s'| |] eqn:Hs; try done.
    case_bool_decide as Hin; [|done]. injection Hreq as -> ->.
    pose proof (updateStatus_applies tn body w l p s Htn Hl Hs Hin) as Hc.
    cbn zeta in Hc.
    match type of Hc with _ = Some (_, ?W) =>
      edestruct (Hfin W) as (p' & Hp' & Hno & Hyes);
        [reflexivity|reflexivity|]; exists W, p'
    end.
    cbn [step]. rewrite Hc. by cbn.
  - destruct (timers w !! id) as [t|] eqn:Ht; [cbn in Hreq|done].
    destruct (Timer.statusFlow t !! Timer.currentIndex t) as [s'|] eqn:Hs;
      [cbn in Hreq|done].
    injection Hreq as <- ->.
    pose proof (interval_callback_applies id w t s p Ht Hs Hl) as Hc.
    cbn zeta in Hc.
    match type of Hc with _ = Some (_, ?W) =>
      edestruct (Hfin W) as (p' & Hp' & Hno & Hyes);
        [reflexivity|reflexivity|]; exists W, p'
    end.
    cbn [step]. rewrite Hc. by cbn.
Qed.

(** Webhooks leave only through [sendWebhook], one per event at most. *)
Lemma step_outbox e w w' :
  step clock e w = Some w' →
  outbox w' = outbox w
  ∨ ∃ url ts p, truthy url = true
                ∧ outbox w' = outbox w ++ [webhook_of url ts p].
Proof.
  destruct e as [body|tn|tn body| |tn body|id]; cbn [step].
  - destruct (rejected body) eqn:Hr.
    + rewrite createParcel_rejects by done. intros [= <-]. by left.
    + rewrite createParcel_accepts by done. intros [= <-]. cbn.
      destruct (truthy (field body "webhook_url")) eqn:Hurl; eauto 10.
  - destruct (getParcel tn w) as [[r w'']|] eqn:Hg; [|done].
    apply getParcel_world in Hg as ->. intros [= <-]. by left.
  - destruct (parcels w !! tn) as [l|] eqn:Htn.
    2:{ rewrite updateStatus_not_found by done. intros [= <-]. by left. }
    destruct (includes STATUSES.values (field body "status")) eqn:Hin.
    2:{ erewrite updateStatus_rejects by done. intros [= <-]. by left. }
    destruct (field body "status") as [| | | |s| |] eqn:Hs; try done.
    apply bool_decide_eq_true in Hin.
    destruct (heap w !! l) as [p|] eqn:Hl.
    + erewrite updateStatus_applies by done. intros [= <-]. cbn.
      destruct (truthy (Parcel.webhook_url p)) eqn:Hurl; eauto 10.
    + unfold updateStatus. rewrite Hs. unfold includes.
      rewrite bool_decide_true by done. exec. rewrite Htn. exec.
      by rewrite Hl.
  - destruct (listParcels_world w) as [r ->]. intros [= <-]. by left.
  - destruct (parcels w !! tn) as [l|] eqn:Htn.
    + destruct (converts_to_string (field body "speed")) eqn:Hsp.
      * erewrite simulate_arms by done. intros [= <-]. by left.
      * erewrite simulate_throws by done. intros [= <-]. by left.
    + rewrite simulate_not_found by done. intros [= <-]. by left.
  - intros Hstep.
    destruct (timers w !! id) as [t|] eqn:Ht.
    2:{ by rewrite interval_callback_unarmed in Hstep. }
    destruct (decide (length (Timer.statusFlow t) ≤ Timer.currentIndex t))
      as [Hle|Hlt].
    { erewrite interval_callback_cancels in Hstep by done.
      injection Hstep as <-. by left. }
    destruct (lookup_lt_is_Some_2 (Timer.statusFlow t) (Timer.currentIndex t))
      as [s Hs]; [lia|].
    destruct (heap w !! Timer.parcel t) as [p|] eqn:Hl.
    + erewrite interval_callback_applies in Hstep by done.
      injection Hstep as <-. cbn.
      destruct (truthy (Parcel.webhook_url p)) eqn:Hurl; eauto 10.
    + exfalso. revert Hstep. unfold interval_callback. exec. rewrite Ht.
      rewrite bool_decide_false by done. rewrite Hs. exec. by rewrite Hl.
Qed.

(** X6: no event takes a webhook back, and one event sends at most one:
    afterwards the webhooks sent are those sent before, followed by at most
    one more, which has event "parcel.status.updated" and a truthy URL. *)
Theorem events_send_at_most_one_webhook e w w' :
  step clock e w = Some w' →
  outbox w' = outbox w
  ∨ ∃ hook,
      outbox w' = outbox w ++ [hook]
      ∧ Webhook.event hook = "parcel.status.updated"
      ∧ truthy (Webhook.url hook) = true.
Proof.
  intros [H|(url & ts & p & Hurl & H)]%step_outbox; [by left|].
  right. eexists. split; [exact H|]. by cbn.
Qed.

Lemma length_omap_total {A B} (f : A → option B) (xs : list A) :
  (∀ x, x ∈ xs → is_Some (f x)) → length (omap f xs) = length xs.
Proof.
  induction xs as [|x xs IH]; intros Hall; [done|]. cbn.
  destruct (Hall x) as [y ->]; [by left|]. cbn. f_equal.
  apply IH. intros x' Hx'. apply Hall. by right.
Qed.

(** X7: in every reachable state the listing answers 200, changes nothing,
    counts one parcel per tracking number of the Map, and lists exactly the
    stored parcels. *)
Theorem listing_shows_stored_parcels w :
  reachable clock w →
  ∃ data,
    listParcels w = Some (mkResponse 200 (Listing (size (parcels w)) data), w)
    ∧ length data = size (parcels w)
    ∧ ∀ p, p ∈ data ↔ ∃ tn, stored w tn = Some p.
Proof.
  intros [(_ & Hstore & _) _]%reachable_invariant.
  set (data := omap (λ kl : string * nat, heap w !! kl.2)
                 (map_to_list (parcels w))).
  assert (Hlen : length data = size (parcels w)).
  { unfold data. rewrite length_omap_total, length_map_to_list; [done|].
    intros [tn l] Hin%elem_of_map_to_list. cbn.
    apply lookup_lt_is_Some_2. by eapply Hstore. }
  exists data. split; [|split; [done|]].
  - unfold listParcels, parcels_values. exec. fold data. by rewrite Hlen.
  - intros p. unfold data. rewrite list_elem_of_omap. split.
    + intros ([tn l] & Hin%elem_of_map_to_list & Hl). exists tn.
      apply stored_Some. eauto.
    + intros (tn & (l & Htn & Hl)%stored_Some). exists (tn, l).
      split; [by apply elem_of_map_to_list|done].
Qed.

(** X8: in a reachable state whose counter is below 2^53, an accepted
    creation binds a tracking number the Map did not hold, so the Map (and
    with it the count of a listing) grows by exactly one, and every parcel
    stored before is found afterwards as it was. *)
Theorem creation_adds_one_parcel body w :
  reachable clock w →
  (parcelIdCounter w < MAX_EXACT)%Z →
  truthy (field body "order_id") = true →
  truthy (field body "customer_name") = true →
  truthy (field body "customer_phone") = true →
  truthy (field body "customer_address") = true →
  truthy (field body "price") = true →
  ∃ r w',
    createParcel clock body w = Some (r, w')
    ∧ code r = 201%Z
    ∧ parcels w !! tracking (parcelIdCounter w) = None
    ∧ is_Some (stored w' (tracking (parcelIdCounter w)))
    ∧ size (parcels w') = S (size (parcels w))
    ∧ ∀ tn p, stored w tn = Some p → stored w' tn = Some p.
Proof.
  intros [(_ & Hstore & _) Huniq]%reachable_invariant Hc H1 H2 H3 H4 H5.
  destruct (Huniq Hc) as [Hkeys _].
  assert (Hfresh : parcels w !! tracking (parcelIdCounter w) = None).
  { destruct (parcels w !! tracking (parcelIdCounter w)) as [l|] eqn:Htn;
      [|done].
    destruct (Hkeys _ _ Htn) as (k & Hk%(inj tracking) & Hlt). lia. }
  pose proof (createParcel_accepts body w
                (accepted_when_truthy body H1 H2 H3 H4 H5)) as Hcr.
  cbn zeta in Hcr. eexists _, _. split; [exact Hcr|]. split; [done|].
  split; [done|]. unfold stored. cbn [parcels heap].
  fold (tracking (parcelIdCounter w)). split; [|split].
  - rewrite lookup_insert_eq. cbn.
    rewrite lookup_app_r, Nat.sub_diag by lia. by eexists.
  - by apply map_size_insert_None.
  - intros tn p (l & Htn & Hl)%stored_Some.
    rewrite lookup_insert_ne by congruence. rewrite Htn. cbn.
    by apply lookup_app_l_Some.
Qed.

(** X9: the server has no way to delete: whatever the event, a tracking
    number that names a stored parcel before it names one after it. *)
Theorem stored_parcels_are_never_removed e w w' tn :
  reachable clock w →
  step clock e w = Some w' →
  is_Some (stored w tn) →
  is_Some (stored w' tn).
Proof.
  intros Hw Hstep [p (l & Htn & Hl)%stored_Some].
  assert (Hw' : reachable clock w') by (by eapply reachable_step).
  apply reachable_invariant in Hw' as [(_ & Hstore' & _) _].
  apply step_effect in Hstep.
  assert (Hbound : is_Some (parcels w' !! tn)).
  { destruct Hstep as
      [_ ->|? ? ? _ _ Hp _ _ _
         |? ? ? ? ? ? ? _ _ _ _ _ _ _ Hp _ _ _
         |? ? ? _ _ _ Hp _ _ _
         |? ? _ _ _ _ Hp _ _ _
         |? ? ? ? ? ? _ _ _ _ _ _ Hp _ _ _]; rewrite ?Hp, ?lookup_insert_is_Some;
      eauto;
      match goal with |- ?k = tn ∨ _ => destruct (decide (k = tn)); eauto end. }
  destruct Hbound as [l' Htn'].
  destruct (lookup_lt_is_Some_2 (heap w') l') as [p' Hl']; [by eapply Hstore'|].
  exists p'. apply stored_Some. eauto.
Qed.

(** X10: in a reachable state, the answer to a manual update of one
    tracking number, whatever it is, leaves the parcel stored under any
    other tracking number exactly as it was. *)
Theorem update_leaves_other_parcels w tn1 tn2 body r w' :
  reachable clock w →
  tn2 ≠ tn1 →
  updateStatus clock tn1 body w = Some (r, w') →
  stored w' tn2 = stored w tn2.
Proof.
  intros Hw Hne Hupd. apply reachable_well_kept in Hw as (_ & Hkey & _).
  assert (Hstep : step clock (PUT_status tn1 body) w = Some w')
    by (cbn [step]; by rewrite Hupd).
  apply step_effect in Hstep.
  destruct Hstep as
    [_ ->|? ? ? [=]|tn body' l p s en d [= <- <-] Htn Hl _ _ _ Hh Hp _ _ _
       |? ? ? [=]|? ? [=]|? ? ? ? ? ? [=]]; [done|].
  unfold stored. rewrite Hp, Hh.
  destruct (parcels w !! tn2) as [l2|] eqn:Htn2; [cbn|done].
  apply list_lookup_insert_ne. intros <-.
  apply Hne. rewrite <-(Hkey tn1 l p Htn Hl).
  destruct (heap w !! l) as [p2|] eqn:Hl2; [|done].
  injection Hl as <-. symmetry. by apply (Hkey tn2 l p2).
Qed.

Lemma effect_object e w w' l p :
  effect e w w' →
  heap w !! l = Some p →
  ∃ p', heap w' !! l = Some p'
        ∧ (p' = p ∨ ∃ s en d, Entry.status en = s ∧ p' = transition s en d p).
Proof.
  intros Heff Hl.
  assert (Hput : ∀ l0 p0 s en d, heap w !! l0 = Some p0 →
    Entry.status en = s →
    heap w' = <[l0 := transition s en d p0]> (heap w) →
    ∃ p', heap w' !! l = Some p'
      ∧ (p' = p ∨ ∃ s en d, Entry.status en = s ∧ p' = transition s en d p)).
  { intros l0 p0 s en d Hl0 Hen ->. destruct (decide (l0 = l)) as [->|Hne].
    - rewrite list_lookup_insert_eq by (by eapply lookup_lt_Some).
      assert (p0 = p) as -> by congruence. eauto 10.
    - rewrite list_lookup_insert_ne by done. eauto. }
  destruct Heff as
    [_ ->|? ? ? _ Hh _ _ _ _
       |? ? ? ? ? ? ? _ _ ? _ _ ? Hh _ _ _ _
       |? ? ? _ _ Hh _ _ _ _
       |? ? _ _ _ Hh _ _ _ _
       |? ? ? ? ? ? _ _ _ ? ? Hh _ _ _ _]; eauto;
    rewrite Hh; eauto.
  exists p. split; [by apply lookup_app_l_Some|by left].
Qed.

(** X11: in a reachable state whose counter is below 2^53, an event leaves a
    stored parcel as it was or applies one status change to it: the
    properties set at creation (tracking number, order and customer fields,
    wilaya, commune, product_list, price, cod_amount, webhook_url,
    created_at) keep their values, and at most one history entry is pushed,
    whose status becomes the parcel's status. *)
Theorem event_keeps_parcel_identity e w w' tn p :
  reachable clock w →
  (parcelIdCounter w < MAX_EXACT)%Z →
  step clock e w = Some w' →
  stored w tn = Some p →
  ∃ p',
    stored w' tn = Some p'
    ∧ same_identity p p'
    ∧ (p' = p
       ∨ ∃ en, Parcel.status_history p' = Parcel.status_history p ++ [en]
               ∧ Parcel.status p' = Entry.status en).
Proof.
  intros [_ Huniq]%reachable_invariant Hc Hstep%step_effect
    (l & Htn & Hl)%stored_Some.
  destruct (effect_object e w w' l p Hstep Hl)
    as (p' & Hl' & [->|(s & en & d & Hen & ->)]).
  - exists p. split; [|split; [by repeat split|by left]].
    apply stored_Some. exists l. split; [by eapply effect_store_stable|done].
  - eexists. split; [|split; [apply transition_same_identity|]].
    + apply stored_Some. exists l.
      split; [by eapply effect_store_stable|done].
    + right. exists en. by rewrite transition_history, transition_status.
Qed.

(** X12: in every reachable state a stored parcel carries the tracking
    number it is stored under, a cod_amount equal to its price, and truthy
    order_id, customer_name, customer_phone, customer_address and price. *)
Theorem stored_parcel_is_well_formed w tn p :
  reachable clock w →
  stored w tn = Some p →
  Parcel.tracking_number p = tn
  ∧ Parcel.cod_amount p = Parcel.price p
  ∧ truthy (Parcel.order_id p) = true
  ∧ truthy (Parcel.customer_name p) = true
  ∧ truthy (Parcel.customer_phone p) = true
  ∧ truthy (Parcel.customer_address p) = true
  ∧ truthy (Parcel.price p) = true.
Proof.
  intros (Hk & Hkey & _)%reachable_well_kept (l & Htn & Hl)%stored_Some.
  destruct (Hk l p Hl) as (? & ? & ? & ? & ? & ? & _).
  split; [by eapply Hkey|done].
Qed.

(** X13: in every reachable state the status of a stored parcel, and the
    status of every entry of its history, is one of the nine values of
    STATUSES. *)
Theorem status_stays_in_enum w tn p :
  reachable clock w →
  stored w tn = Some p →
  Parcel.status p ∈ STATUSES.values
  ∧ ∀ en, en ∈ Parcel.status_history p → Entry.status en ∈ STATUSES.values.
Proof.
  intros (Hk & _ & _)%reachable_well_kept (l & Htn & Hl)%stored_Some.
  destruct (Hk l p Hl) as (_ & _ & _ & _ & _ & _ & Hs & Hall & _).
  split; [done|]. intros en Hen. apply Hall. unfold statuses.
  by apply list_elem_of_fmap_2.
Qed.

(** X14: in every reachable state a stored parcel has delivered_at set if and
    only if its history holds a DELIVERED entry. *)
Theorem delivered_at_iff_delivered_entry w tn p :
  reachable clock w →
  stored w tn = Some p →
  is_Some (Parcel.delivered_at p)
  ↔ STATUSES.DELIVERED ∈ statuses (Parcel.status_history p).
Proof.
  intros (Hk & _ & _)%reachable_well_kept (l & Htn & Hl)%stored_Some.
  by destruct (Hk l p Hl) as (_ & _ & _ & _ & _ & _ & _ & _ & Hd).
Qed.

(** The parcel of a run that nothing else moves has the status the run
    applied last, and a delivered_at once the run has applied DELIVERED. *)
Lemma run_heap_status id n w0 w' tn l flow p :
  interleaved clock (leaves l) id n w0 w' →
  timers w0 !! id = Some (Timer.mk tn l flow 0) →
  id < next_timer w0 →
  heap w0 !! l = Some p →
  ∃ p',
    heap w' !! l = Some p'
    ∧ (∀ s, last (take n flow) = Some s → Parcel.status p' = s)
    ∧ (STATUSES.DELIVERED ∈ take n flow → is_Some (Parcel.delivered_at p')).
Proof.
  intros Hrun Ht0 Hfresh Hl0.
  induction Hrun as [w|n w w1 w2 Hrun IH Hstep|n w w1 w2 e _ IH _ Hq Hstep].
  - exists p. split; [done|]. rewrite take_0. split; [done|].
    by intros ?%elem_of_nil.
  - destruct (IH Ht0 Hfresh Hl0) as (p1 & Hl1 & Hlast & Hdel). clear IH.
    destruct (run_timer _ _ _ _ _ _ _ _ Hrun Ht0 Hfresh (mk_is_Some _ _ Hl0))
      as (_ & _ & _ & Ht).
    destruct (decide (n ≤ length flow)) as [Hle|Hgt].
    2:{ cbn [step] in Hstep. by rewrite interval_callback_unarmed in Hstep. }
    destruct (tick_cases _ _ _ _ Hstep Ht)
      as [[Hend ->]|(s & p1' & en & Hs & Hl1' & Hen & Hh & _ & _)];
      cbn [Timer.statusFlow Timer.currentIndex Timer.parcel] in *.
    + exists p1. cbn. rewrite (take_ge flow (S n)) by lia.
      rewrite (take_ge flow n) in Hlast, Hdel by lia. done.
    + assert (p1' = p1) as -> by congruence.
      eexists. rewrite Hh.
      rewrite list_lookup_insert_eq by (by eapply lookup_lt_Some).
      split; [done|]. rewrite (take_S_r _ _ _ Hs).
      rewrite transition_status, transition_delivered_at. split.
      * intros s'. rewrite last_snoc. by intros [= <-].
      * intros [Hin|Heq%list_elem_of_singleton]%elem_of_app.
        -- destruct (String.eqb s STATUSES.DELIVERED); [by eexists|eauto].
        -- rewrite <-Heq, String.eqb_refl. by eexists.
  - destruct (IH Ht0 Hfresh Hl0) as (p1 & Hl1 & Hlast & Hdel). clear IH.
    exists p1. split; [|done]. by eapply step_heap_frame.
Qed.

Lemma not_failed_scenario v :
  v ≠ VString "failed" → is_failed_scenario v = false.
Proof.
  destruct v as [| | | |s| |]; try done. cbn.
  destruct (String.eqb_spec s "failed") as [->|]; done.
Qed.

(** X15: a simulation started (its [speed] converts to a property key) with
    any scenario other than the string "failed" (none at all, too) on a
    stored parcel that nothing else moves runs six callbacks, each of which
    does run, and appends, callback by callback, COLLECTED, IN_TRANSIT,
    OUT_FOR_DELIVERY, DELIVERED, COMPLETED.  delivered_at is as it was
    through the first three callbacks and set from the fourth on; from the
    fifth on the status is COMPLETED. *)
Theorem default_scenario_history w tn body l p :
  parcels w !! tn = Some l →
  heap w !! l = Some p →
  field body "scenario" ≠ VString "failed" →
  converts_to_string (field body "speed") = true →
  ∃ r w0,
    simulate tn body w = Some (r, w0)
    ∧ ∀ n w', interleaved clock (leaves l) (next_timer w) n w0 w' →
        n ≤ 6
        ∧ (n < 6 → is_Some (step clock (Tick (next_timer w)) w'))
        ∧ ∃ p',
            heap w' !! l = Some p'
            ∧ statuses (Parcel.status_history p')
              = statuses (Parcel.status_history p)
                ++ take n [STATUSES.COLLECTED; STATUSES.IN_TRANSIT;
                           STATUSES.OUT_FOR_DELIVERY; STATUSES.DELIVERED;
                           STATUSES.COMPLETED]
            ∧ (n < 4 → Parcel.delivered_at p' = Parcel.delivered_at p)
            ∧ (4 ≤ n → is_Some (Parcel.delivered_at p'))
            ∧ (5 ≤ n → Parcel.status p' = STATUSES.COMPLETED).
Proof.
  intros Htn Hl Hsc Hsp. eexists _, _. split; [by apply simulate_arms|].
  intros n w' Hrun.
  assert (Hflow : chosen_flow body = flow_default)
    by (unfold chosen_flow; by rewrite not_failed_scenario).
  rewrite Hflow in Hrun.
  pose proof Hrun as Hrun'. pose proof Hrun as Hrun''.
  eapply run_timer in Hrun'' as (_ & _ & Hn & Ht);
    [|by cbn; apply lookup_insert_eq|cbn; lia|done].
  eapply run_heap in Hrun as (p' & Hl' & Hhist & Hkeep);
    [|by cbn; apply lookup_insert_eq|cbn; lia|done].
  eapply run_heap_status in Hrun' as (p'' & Hl'' & Hlast & Hdel);
    [|by cbn; apply lookup_insert_eq|cbn; lia|done].
  assert (p'' = p') as -> by congruence.
  cbn in Hn. split; [lia|]. split.
  { intros Hlt. rewrite decide_True in Ht by (cbn; lia).
    eapply tick_runs; [exact Ht|]. cbn. by rewrite Hl'. }
  exists p'. split; [done|]. split; [done|]. split; [|split].
  - intros Hn'. apply Hkeep.
    destruct n as [|[|[|[|n]]]]; [| | |  |lia];
      refine (bool_decide_eq_true_1 (_ ∉ _) _); vm_compute; reflexivity.
  - intros Hn'. apply Hdel.
    destruct n as [|[|[|[|n]]]]; [lia..|].
    cbn. do 3 right. by left.
  - intros Hn'. apply Hlast. by rewrite take_ge by (cbn; lia).
Qed.

(** X16: starting a simulation on a stored parcel never touches a run that
    is under way.  In a reachable state, when [speed] converts to a property
    key the request is answered 200 and arms a timer under a handle no armed
    timer has, at the first status of the chosen sequence; it keeps every
    armed timer as it is (a second run on the same parcel included), and
    changes no parcel, sends no webhook and reads no clock.  When the
    conversion of [speed] throws, the request is answered 500 and nothing at
    all changes: no timer is armed. *)
Theorem simulate_arms_an_independent_timer w tn body l :
  reachable clock w →
  parcels w !! tn = Some l →
  (converts_to_string (field body "speed") = true →
   ∃ w',
     simulate tn body w
     = Some (mkResponse 200
               (SimulationStarted ("Simulation started for " +:+ tn) tn
                  (field body "speed")), w')
     ∧ timers w !! next_timer w = None
     ∧ timers w' !! next_timer w
       = Some (Timer.mk tn l
                 (if is_failed_scenario (field body "scenario")
                  then flow_failed else flow_default) 0)
     ∧ (∀ id t, timers w !! id = Some t → timers w' !! id = Some t)
     ∧ heap w' = heap w
     ∧ parcels w' = parcels w
     ∧ outbox w' = outbox w
     ∧ clock_reads w' = clock_reads w)
  ∧ (converts_to_string (field body "speed") = false →
     simulate tn body w = Some (mkResponse 500 ServerError, w)).
Proof.
  intros [(_ & _ & Htimers) _]%reachable_invariant Htn.
  split; [|by apply (simulate_throws tn body w l)]. intros Hsp.
  assert (Hfresh : timers w !! next_timer w = None).
  { destruct (timers w !! next_timer w) as [t|] eqn:Ht; [|done].
    apply Htimers in Ht. lia. }
  eexists. split; [by apply simulate_arms|]. cbn. split; [done|].
  split; [by rewrite lookup_insert_eq|]. split; [|done].
  intros id t Hid. rewrite lookup_insert_ne; [done|]. congruence.
Qed.

Lemma effect_numbered e w w' :
  effect e w w' → unique_keys w → numbered w → numbered w'.
Proof.
  intros Heff Huniq Hnum.
  destruct Heff as
    [_ ->|body created ts _ _ Hp Hc _ _
       |? ? ? ? ? ? ? _ _ _ _ _ _ _ Hp Hc _ _
       |? ? ? _ _ _ Hp Hc _ _
       |? ? _ _ _ _ Hp Hc _ _
       |id t ? ? ? ? _ Hid _ _ _ _ Hp Hc _ _]; [done|..];
    unfold numbered; rewrite Hc, Hp; try done; intros Hlt.
  - apply increment_below in Hlt as Hlt'.
    destruct (Hnum Hlt') as [Hlow Hdom].
    rewrite increment_exact by done. split; [lia|]. intros tn.
    rewrite lookup_insert_is_Some, Hdom. split.
    + intros [<-|[_ (k & ? & ->)]].
      * exists (parcelIdCounter w). split; [lia|done].
      * exists k. split; [lia|done].
    + intros (k & Hk & ->).
      destruct (decide (k = parcelIdCounter w)) as [->|Hne]; [by left|].
      right. split; [|exists k; split; [lia|done]].
      intros Heq%(inj tracking). lia.
  - destruct (Huniq Hlt) as [_ Hcoh]. rewrite insert_id by (by eapply Hcoh).
    by apply Hnum.
Qed.

Lemma reachable_numbered w :
  reachable clock w → numbered w.
Proof.
  induction 1 as [|e w w' Hw IH Hstep].
  - intros _. split; [done|]. intros tn. cbn. rewrite lookup_empty. split.
    + by intros [? ?].
    + intros (k & ? & _). lia.
  - apply reachable_invariant in Hw as [_ Hu].
    apply step_effect in Hstep. by eapply effect_numbered.
Qed.

(** X17: in a reachable state whose counter is below 2^53, the counter is at
    least 1000 and the stored tracking numbers are exactly "YDN1000",
    "YDN1001", ... up to the counter, the counter itself excluded: numbers are
    handed out consecutively and none is skipped or lost. *)
Theorem tracking_numbers_are_consecutive w :
  reachable clock w →
  (parcelIdCounter w < MAX_EXACT)%Z →
  (1000 ≤ parcelIdCounter w)%Z
  ∧ ∀ tn, is_Some (stored w tn)
          ↔ ∃ k, (1000 ≤ k < parcelIdCounter w)%Z
                 ∧ tn = "YDN" +:+ Number_toString k.
Proof.
  intros Hw Hc. pose proof (reachable_numbered w Hw Hc) as [Hlow Hdom].
  apply reachable_invariant in Hw as [(_ & Hstore & _) _].
  split; [done|]. intros tn. rewrite <-(Hdom tn). split.
  - intros [p (l & Htn & _)%stored_Some]. eauto.
  - intros [l Htn].
    destruct (lookup_lt_is_Some_2 (heap w) l) as [p Hl]; [by eapply Hstore|].
    exists p. apply stored_Some. eauto.
Qed.

(** The webhooks of [n] consecutive callbacks of a timer. *)
Lemma ticks_outbox id n w w' tn l flow i p :
  timers w !! id = Some (Timer.mk tn l flow i) →
  heap w !! l = Some p →
  run clock (replicate n (Tick id)) w = Some w' →
  ∃ hooks,
    outbox w' = outbox w ++ hooks
    ∧ reported hooks
      = (if truthy (Parcel.webhook_url p) then take n (drop i flow) else [])
    ∧ ∀ h, h ∈ hooks → Webhook.url h = Parcel.webhook_url p.
Proof.
  revert w i p. induction n as [|n IH]; intros w i p Ht Hl; cbn [replicate run].
  { intros [= <-]. exists []. rewrite app_nil_r. split; [done|].
    split; [by case_match|]. by intros h ?%elem_of_nil. }
  cbn [step].
  destruct (decide (length flow ≤ i)) as [Hle|Hlt].
  - erewrite interval_callback_cancels by done. cbn.
    destruct n as [|n]; cbn [replicate run step].
    + intros [= <-]. exists []. cbn. rewrite app_nil_r, drop_ge by done.
      split; [done|]. split; [by case_match|]. by intros h ?%elem_of_nil.
    + rewrite interval_callback_unarmed; [done|]. cbn. apply lookup_delete_eq.
  - destruct (lookup_lt_is_Some_2 flow i) as [s Hs]; [lia|].
    pose proof (interval_callback_applies id w _ s p Ht Hs Hl) as Hc.
    cbn zeta in Hc. rewrite Hc. cbn [fmap option_fmap option_map snd].
    clear Hc. intros Hrun.
    eapply IH in Hrun as (hooks & Hout & Hrep & Hurl);
      [|cbn; by rewrite lookup_insert_eq
       |cbn; by apply list_lookup_insert_eq; eapply lookup_lt_Some].
    cbn in Hout, Hrep, Hurl.
    destruct (transition_same_identity s
                (Entry.mk s (clock (clock_reads w))
                   (VString ("Auto-simulated: " +:+ s)))
                (clock (S (clock_reads w))) p)
      as (_ & _ & _ & _ & _ & _ & _ & _ & _ & _ & Eurl & _).
    rewrite Eurl in Hrep, Hurl.
    rewrite (drop_S _ _ _ Hs). cbn [take].
    destruct (truthy (Parcel.webhook_url p)) eqn:Htruthy.
    + eexists (_ :: hooks). rewrite Hout, <-app_assoc. split; [done|].
      split.
      * unfold reported in *. cbn. by rewrite Hrep, transition_status.
      * intros h [->|Hin]%elem_of_cons; [done|by apply Hurl].
    + exists hooks. by rewrite Hout.
Qed.

(** A timer that is armed on an allocated parcel runs as many callbacks as
    it has statuses left, and one more. *)
Lemma ticks_run id n w tn l flow i :
  timers w !! id = Some (Timer.mk tn l flow i) →
  is_Some (heap w !! l) →
  n + i ≤ S (length flow) →
  is_Some (run clock (replicate n (Tick id)) w).
Proof.
  revert w i. induction n as [|n IH]; intros w i Ht [p Hl] Hn;
    cbn [replicate run]; [done|].
  cbn [step].
  destruct (decide (length flow ≤ i)) as [Hle|Hlt].
  - erewrite interval_callback_cancels by done. cbn.
    destruct n as [|n]; [done|lia].
  - destruct (lookup_lt_is_Some_2 flow i) as [s Hs]; [lia|].
    pose proof (interval_callback_applies id w _ s p Ht Hs Hl) as Hc.
    cbn zeta in Hc. rewrite Hc. cbn [fmap option_fmap option_map snd].
    eapply (IH _ (S i)); [cbn; by rewrite lookup_insert_eq| |lia].
    cbn. apply list_lookup_insert_is_Some. eauto.
Qed.

(** X18: once a simulation is started (its [speed] converts to a property
    key), each of its six callbacks runs, and the first [n] of them, run one
    after the other on a parcel whose webhook_url is truthy, send one webhook
    per status applied, in the order of the sequence and all to that URL:
    [n] webhooks for [n] up to five, and none at the sixth callback, which
    only cancels.  Starting the simulation sends none, and with a falsy
    webhook_url the whole run sends nothing. *)
Theorem simulation_notifies_each_status w tn body l p :
  parcels w !! tn = Some l →
  heap w !! l = Some p →
  converts_to_string (field body "speed") = true →
  ∃ r w0,
    simulate tn body w = Some (r, w0)
    ∧ outbox w0 = outbox w
    ∧ ∀ n, n ≤ 6 →
        ∃ w' hooks,
          run clock (replicate n (Tick (next_timer w))) w0 = Some w'
          ∧ outbox w' = outbox w ++ hooks
          ∧ reported hooks
            = (if truthy (Parcel.webhook_url p)
               then take n (if is_failed_scenario (field body "scenario")
                            then flow_failed else flow_default)
               else [])
          ∧ ∀ h, h ∈ hooks → Webhook.url h = Parcel.webhook_url p.
Proof.
  intros Htn Hl Hsp. eexists _, _. split; [by apply simulate_arms|].
  split; [done|]. intros n Hn.
  match goal with |- context [run _ _ ?W0] =>
    destruct (ticks_run (next_timer w) n W0 tn l (chosen_flow body) 0)
      as [w' Hrun];
      [cbn; by rewrite lookup_insert_eq|cbn; eauto
      |rewrite chosen_flow_length; lia|]
  end.
  exists w'. pose proof Hrun as Hrun'.
  eapply ticks_outbox in Hrun' as (hooks & Hout & Hrep & Hurl);
    [|cbn; by rewrite lookup_insert_eq|done].
  exists hooks. rewrite drop_0 in Hrep. done.
Qed.

(** X19: a manual update of a stored parcel whose status is anything but one
    of the nine status strings (absent, null, a number, an array, the name of
    a status in capitals) answers 400 "Invalid status" and changes nothing. *)
Theorem update_outside_enum_rejected w tn body l :
  parcels w !! tn = Some l →
  (∀ s, field body "status" = VString s → s ∉ STATUSES.values) →
  updateStatus clock tn body w
  = Some (mkResponse 400 (Failure "Invalid status"), w).
Proof.
  intros Htn Hout. eapply updateStatus_rejects; [done|].
  destruct (field body "status") as [| | | |s| |] eqn:Hs; try done.
  cbn. apply bool_decide_eq_false. by apply Hout.
Qed.

End Properties.

(** ** The claims at sample inputs *)

Lemma invalid_status_leaves_parcel_unchanged_witness :
  parcels created !! "YDN1000" = Some 0
  ∧ field (status_body "lost") "status" = VString "lost"
  ∧ ("lost" ∉ STATUSES.values)
  ∧ updateStatus sample_clock "YDN1000" (status_body "lost") created
    = Some (mkResponse 400 (Failure "Invalid status"), created).
Proof.
  assert (H1 : parcels created !! "YDN1000" = Some 0)
    by (vm_compute; reflexivity).
  assert (H2 : field (status_body "lost") "status" = VString "lost")
    by (vm_compute; reflexivity).
  assert (H3 : "lost" ∉ STATUSES.values)
    by (refine (bool_decide_eq_true_1 ("lost" ∉ STATUSES.values) _);
        vm_compute; reflexivity).
  refine (conj H1 (conj H2 (conj H3 _))).
  exact (invalid_status_leaves_parcel_unchanged sample_clock _ _ _ _ _ H1 H2 H3).
Defined.

Lemma missing_required_field_rejected_witness :
  (order_without_price !! "order_id" = None
   ∨ order_without_price !! "customer_name" = None
   ∨ order_without_price !! "customer_phone" = None
   ∨ order_without_price !! "customer_address" = None
   ∨ order_without_price !! "price" = None)
  ∧ createParcel sample_clock order_without_price initial
    = Some (mkResponse 400 (Failure "Missing required fields"), initial)
  ∧ (createParcel sample_clock order_without_price ≫= λ _, listParcels) initial
    = listParcels initial.
Proof.
  assert (H : order_without_price !! "price" = None)
    by (vm_compute; reflexivity).
  split; [by repeat right|].
  apply (missing_required_field_rejected sample_clock). by repeat right.
Defined.

Lemma falsy_required_field_rejected_witness :
  is_Some (order_zero_price !! "order_id")
  ∧ is_Some (order_zero_price !! "customer_name")
  ∧ is_Some (order_zero_price !! "customer_phone")
  ∧ is_Some (order_zero_price !! "customer_address")
  ∧ is_Some (order_zero_price !! "price")
  ∧ truthy (field order_zero_price "price") = false
  ∧ createParcel sample_clock order_zero_price initial
    = Some (mkResponse 400 (Failure "Missing required fields"), initial).
Proof.
  assert (H1 : is_Some (order_zero_price !! "order_id"))
    by (eexists; vm_compute; reflexivity).
  assert (H2 : is_Some (order_zero_price !! "customer_name"))
    by (eexists; vm_compute; reflexivity).
  assert (H3 : is_Some (order_zero_price !! "customer_phone"))
    by (eexists; vm_compute; reflexivity).
  assert (H4 : is_Some (order_zero_price !! "customer_address"))
    by (eexists; vm_compute; reflexivity).
  assert (H5 : is_Some (order_zero_price !! "price"))
    by (eexists; vm_compute; reflexivity).
  assert (H6 : truthy (field order_zero_price "price") = false)
    by (vm_compute; reflexivity).
  refine (conj H1 (conj H2 (conj H3 (conj H4 (conj H5 (conj H6 _)))))).
  apply (falsy_required_field_rejected sample_clock _ _ H1 H2 H3 H4 H5).
  by repeat right.
Defined.

(** An empty customer_name is rejected in the same way. *)
Example empty_customer_name_rejected :
  createParcel sample_clock (<["customer_name" := VString ""]> order) initial
  = Some (mkResponse 400 (Failure "Missing required fields"), initial).
Proof. vm_compute. reflexivity. Qed.

(** C6 as stated fails: all five required fields are supplied, the price is
    the number 0, and the answer is 400. *)
Lemma creation_with_zero_price_not_accepted :
  order_zero_price !! "order_id" = Some (VString "ORD1")
  ∧ order_zero_price !! "customer_name" = Some (VString "A")
  ∧ order_zero_price !! "customer_phone" = Some (VString "000")
  ∧ order_zero_price !! "customer_address" = Some (VString "X")
  ∧ order_zero_price !! "price" = Some (VNumber (S754_zero false))
  ∧ createParcel sample_clock order_zero_price initial
    = Some (mkResponse 400 (Failure "Missing required fields"), initial).
Proof. vm_compute. done. Qed.

Lemma creation_stores_pending_parcel_witness :
  truthy (field order "order_id") = true
  ∧ truthy (field order "customer_name") = true
  ∧ truthy (field order "customer_phone") = true
  ∧ truthy (field order "customer_address") = true
  ∧ truthy (field order "price") = true
  ∧ ∃ w' p en,
      createParcel sample_clock order initial
      = Some (mkResponse 201
                (Created "Parcel created successfully" "YDN1000"
                   "pending_pickup" "2-3 business days"), w')
      ∧ stored w' "YDN1000" = Some p
      ∧ Parcel.tracking_number p = "YDN1000"
      ∧ Parcel.status p = "pending_pickup"
      ∧ Parcel.status_history p = [en]
      ∧ Entry.status en = "pending_pickup"
      ∧ Parcel.price p = VNumber (Number 1000)
      ∧ Parcel.cod_amount p = Parcel.price p
      ∧ (1000 ≤ parcelIdCounter w')%Z
      ∧ ((1000 < MAX_EXACT)%Z → parcelIdCounter w' = 1001%Z).
Proof.
  assert (H1 : truthy (field order "order_id") = true)
    by (vm_compute; reflexivity).
  assert (H2 : truthy (field order "customer_name") = true)
    by (vm_compute; reflexivity).
  assert (H3 : truthy (field order "customer_phone") = true)
    by (vm_compute; reflexivity).
  assert (H4 : truthy (field order "customer_address") = true)
    by (vm_compute; reflexivity).
  assert (H5 : truthy (field order "price") = true)
    by (vm_compute; reflexivity).
  refine (conj H1 (conj H2 (conj H3 (conj H4 (conj H5 _))))).
  exact (creation_stores_pending_parcel sample_clock order initial
           H1 H2 H3 H4 H5).
Defined.

(** C9 as stated fails: webhook_url is present, as the empty string; the
    parcel is created and no webhook is sent. *)
Lemma creation_with_empty_webhook_url_sends_nothing :
  order_empty_webhook !! "webhook_url" = Some (VString "")
  ∧ fst <$> createParcel sample_clock order_empty_webhook initial
    = Some (mkResponse 201
              (Created "Parcel created successfully" "YDN1000"
                 "pending_pickup" "2-3 business days"))
  ∧ outbox ∘ snd <$> createParcel sample_clock order_empty_webhook initial
    = Some [].
Proof. vm_compute. done. Qed.

Lemma creation_notifies_webhook_witness :
  truthy (field order "order_id") = true
  ∧ truthy (field order "customer_name") = true
  ∧ truthy (field order "customer_phone") = true
  ∧ truthy (field order "customer_address") = true
  ∧ truthy (field order "price") = true
  ∧ ∃ r w',
      createParcel sample_clock order initial = Some (r, w')
      ∧ code r = 201%Z
      ∧ (truthy (field order "webhook_url") = true →
         ∃ hook en,
           outbox w' = [hook]
           ∧ Webhook.url hook = VString "http://localhost:5000/webhook"
           ∧ Webhook.event hook = "parcel.status.updated"
           ∧ Webhook.tracking_number (Webhook.payload hook) = "YDN1000"
           ∧ Webhook.status (Webhook.payload hook) = "pending_pickup"
           ∧ Webhook.status_history (Webhook.payload hook) = [en]
           ∧ Entry.status en = "pending_pickup"
           ∧ Webhook.delivered_at (Webhook.payload hook) = None)
      ∧ (truthy (field order "webhook_url") = false → outbox w' = []).
Proof.
  assert (H1 : truthy (field order "order_id") = true)
    by (vm_compute; reflexivity).
  assert (H2 : truthy (field order "customer_name") = true)
    by (vm_compute; reflexivity).
  assert (H3 : truthy (field order "customer_phone") = true)
    by (vm_compute; reflexivity).
  assert (H4 : truthy (field order "customer_address") = true)
    by (vm_compute; reflexivity).
  assert (H5 : truthy (field order "price") = true)
    by (vm_compute; reflexivity).
  refine (conj H1 (conj H2 (conj H3 (conj H4 (conj H5 _))))).
  exact (creation_notifies_webhook sample_clock order initial
           H1 H2 H3 H4 H5).
Defined.

(** C1 as stated fails: a second DELIVERED transition, by a manual update or
    by a simulation tick, replaces the delivered_at of the first. *)
Lemma second_delivery_overwrites_delivered_at :
  Parcel.delivered_at <$> stored delivered_once "YDN1000" = Some (Some "t4")
  ∧ Parcel.delivered_at <$> stored delivered_twice "YDN1000"
    = Some (Some "t7")
  ∧ Parcel.delivered_at <$> stored delivered_then_simulated "YDN1000"
    = Some (Some "t13").
Proof. vm_compute. done. Qed.

Lemma delivered_at_follows_each_delivery_witness :
  ∃ p,
    requested (PUT_status "YDN1000" (status_body "delivered")) delivered_once
    = Some (0, "delivered")
    ∧ heap delivered_once !! 0 = Some p
    ∧ ∃ w' p',
        step sample_clock (PUT_status "YDN1000" (status_body "delivered"))
          delivered_once
        = Some w'
        ∧ heap w' !! 0 = Some p'
        ∧ Parcel.status p' = "delivered"
        ∧ Parcel.delivered_at p' = Some "t7".
Proof.
  assert (H1 : requested (PUT_status "YDN1000" (status_body "delivered"))
                 delivered_once
               = Some (0, "delivered")) by (vm_compute; reflexivity).
  destruct (heap delivered_once !! 0) as [p|] eqn:H2;
    [|by vm_compute in H2].
  exists p. refine (conj H1 (conj eq_refl _)).
  exact (delivered_at_follows_each_delivery sample_clock _ delivered_once 0
           "delivered" p H1 H2).
Defined.

Lemma after_reachable es :
  is_Some (run sample_clock es initial) → reachable sample_clock (after es).
Proof.
  intros [w H]. unfold after. rewrite H. cbn.
  eapply run_reachable; [apply reachable_initial|exact H].
Qed.

Lemma status_is_last_history_entry_witness :
  ∃ p,
    reachable sample_clock mixed
    ∧ stored mixed "YDN1000" = Some p
    ∧ last (statuses (Parcel.status_history p)) = Some (Parcel.status p).
Proof.
  assert (H1 : reachable sample_clock mixed)
    by (apply after_reachable; eexists; vm_compute; reflexivity).
  destruct (stored mixed "YDN1000") as [p|] eqn:H2; [|by vm_compute in H2].
  exists p. refine (conj H1 (conj eq_refl _)).
  exact (status_is_last_history_entry sample_clock mixed "YDN1000" p H1 H2).
Defined.

Lemma history_is_append_only_witness :
  reachable sample_clock mixed
  ∧ (∀ tn p, stored mixed tn = Some p →
       ∃ en rest, Parcel.status_history p = en :: rest
                  ∧ Entry.status en = STATUSES.PENDING_PICKUP)
  ∧ (∀ e w' l p, step sample_clock e mixed = Some w' →
       heap mixed !! l = Some p →
       ∃ p' ext, heap w' !! l = Some p'
                 ∧ Parcel.status_history p' = Parcel.status_history p ++ ext)
  ∧ (∀ e w' tn p, (parcelIdCounter mixed < MAX_EXACT)%Z →
       step sample_clock e mixed = Some w' → stored mixed tn = Some p →
       ∃ p' ext, stored w' tn = Some p'
                 ∧ Parcel.status_history p' = Parcel.status_history p ++ ext).
Proof.
  assert (H1 : reachable sample_clock mixed)
    by (apply after_reachable; eexists; vm_compute; reflexivity).
  refine (conj H1 _).
  exact (history_is_append_only sample_clock mixed H1).
Defined.

(** C4 as stated fails: the fifth callback applied RETURNED, the last status
    of the sequence; the timer is still armed, and a sixth callback runs,
    which changes no parcel and cancels the timer. *)
Lemma timer_armed_after_last_status :
  statuses ∘ Parcel.status_history <$> stored five_ticks "YDN1000"
  = Some ["pending_pickup"; "collected"; "in_transit"; "out_for_delivery";
          "failed_delivery"; "returned"]
  ∧ timers five_ticks !! 0 = Some (Timer.mk "YDN1000" 0 flow_failed 5)
  ∧ heap <$> step sample_clock (Tick 0) five_ticks = Some (heap five_ticks)
  ∧ timers <$> step sample_clock (Tick 0) five_ticks = Some ∅.
Proof. vm_compute. done. Qed.

Lemma timer_cancelled_one_tick_after_last_status_witness :
  parcels created !! "YDN1000" = Some 0
  ∧ is_Some (heap created !! 0)
  ∧ converts_to_string (field failed_scenario "speed") = true
  ∧ ∃ r w0,
      simulate "YDN1000" failed_scenario created = Some (r, w0)
      ∧ ∀ n w',
          interleaved sample_clock any_event (next_timer created) n w0 w' →
          n ≤ 6
          ∧ (n < 5 →
             ∃ s w'' p'',
               chosen_flow failed_scenario !! n = Some s
               ∧ step sample_clock (Tick (next_timer created)) w' = Some w''
               ∧ heap w'' !! 0 = Some p''
               ∧ Parcel.status p'' = s
               ∧ is_Some (timers w'' !! next_timer created))
          ∧ (n = 5 →
             is_Some (timers w' !! next_timer created)
             ∧ step sample_clock (Tick (next_timer created)) w'
               = Some (mkWorld (heap w') (parcels w') (parcelIdCounter w')
                         (delete (next_timer created) (timers w'))
                         (next_timer w') (outbox w') (clock_reads w')))
          ∧ (n = 6 →
             timers w' !! next_timer created = None
             ∧ step sample_clock (Tick (next_timer created)) w' = None).
Proof.
  assert (H1 : parcels created !! "YDN1000" = Some 0)
    by (vm_compute; reflexivity).
  assert (H2 : is_Some (heap created !! 0))
    by (eexists; vm_compute; reflexivity).
  assert (H3 : converts_to_string (field failed_scenario "speed") = true)
    by (vm_compute; reflexivity).
  refine (conj H1 (conj H2 (conj H3 _))).
  exact (timer_cancelled_one_tick_after_last_status sample_clock created
           "YDN1000" failed_scenario 0 H1 H2 H3).
Defined.

(** The run of the C5 scenario, computed: five callbacks of the "failed"
    simulation of a fresh parcel, with nothing in between. *)
Example failed_scenario_five_ticks :
  interleaved sample_clock (leaves 0) 0 5 simulation_started five_ticks
  ∧ statuses ∘ Parcel.status_history <$> stored five_ticks "YDN1000"
    = Some ["pending_pickup"; "collected"; "in_transit"; "out_for_delivery";
            "failed_delivery"; "returned"]
  ∧ Parcel.delivered_at <$> stored five_ticks "YDN1000" = Some None.
Proof.
  split; [|by vm_compute].
  apply (interleaved_ticks sample_clock (leaves 0) 0 0 5 simulation_started
           simulation_started); [apply interleaved_start|].
  vm_compute. reflexivity.
Qed.

Lemma failed_scenario_history_witness :
  ∃ p,
    parcels created !! "YDN1000" = Some 0
    ∧ heap created !! 0 = Some p
    ∧ field failed_scenario "scenario" = VString "failed"
    ∧ converts_to_string (field failed_scenario "speed") = true
    ∧ ∃ r w0,
        simulate "YDN1000" failed_scenario created = Some (r, w0)
        ∧ ∀ n w',
            interleaved sample_clock (leaves 0) (next_timer created) n w0 w' →
            n ≤ 6
            ∧ (n < 6 →
               is_Some (step sample_clock (Tick (next_timer created)) w'))
            ∧ ∃ p',
                heap w' !! 0 = Some p'
                ∧ statuses (Parcel.status_history p')
                  = statuses (Parcel.status_history p)
                    ++ take n [STATUSES.COLLECTED; STATUSES.IN_TRANSIT;
                               STATUSES.OUT_FOR_DELIVERY;
                               STATUSES.FAILED_DELIVERY; STATUSES.RETURNED]
                ∧ Parcel.delivered_at p' = Parcel.delivered_at p
                ∧ (STATUSES.DELIVERED ∉ statuses (Parcel.status_history p) →
                   STATUSES.DELIVERED ∉ statuses (Parcel.status_history p')).
Proof.
  assert (H1 : parcels created !! "YDN1000" = Some 0)
    by (vm_compute; reflexivity).
  destruct (heap created !! 0) as [p|] eqn:H2; [|by vm_compute in H2].
  assert (H3 : field failed_scenario "scenario" = VString "failed")
    by (vm_compute; reflexivity).
  assert (H4 : converts_to_string (field failed_scenario "speed") = true)
    by (vm_compute; reflexivity).
  exists p. refine (conj H1 (conj eq_refl (conj H3 (conj H4 _)))).
  exact (failed_scenario_history sample_clock created "YDN1000"
           failed_scenario 0 p H1 H2 H3 H4).
Defined.

(** ** The further properties at sample inputs *)

Lemma unknown_tracking_number_not_found_witness :
  parcels created !! "YDN1001" = None
  ∧ getParcel "YDN1001" created
    = Some (mkResponse 404 (Failure "Parcel not found"), created)
  ∧ (∀ body, updateStatus sample_clock "YDN1001" body created
             = Some (mkResponse 404 (Failure "Parcel not found"), created))
  ∧ (∀ body, simulate "YDN1001" body created
             = Some (mkResponse 404 (Failure "Parcel not found"), created)).
Proof.
  assert (H1 : parcels created !! "YDN1001" = None)
    by (vm_compute; reflexivity).
  refine (conj H1 _).
  exact (unknown_tracking_number_not_found sample_clock created "YDN1001" H1).
Defined.

Lemma creation_round_trip_witness :
  truthy (field order "order_id") = true
  ∧ truthy (field order "customer_name") = true
  ∧ truthy (field order "customer_phone") = true
  ∧ truthy (field order "customer_address") = true
  ∧ truthy (field order "price") = true
  ∧ ∃ w' p,
      createParcel sample_clock order initial
      = Some (mkResponse 201
                (Created "Parcel created successfully" "YDN1000"
                   "pending_pickup" "2-3 business days"), w')
      ∧ stored w' "YDN1000" = Some p
      ∧ Parcel.customer_phone p = VString "000"
      ∧ Parcel.wilaya p = VString "Tlemcen"
      ∧ Parcel.commune p = VString "Tlemcen"
      ∧ Parcel.product_list p = VArray []
      ∧ Parcel.webhook_url p = VString "http://localhost:5000/webhook"
      ∧ Parcel.created_at p = "t0"
      ∧ Parcel.delivered_at p = None
      ∧ getParcel "YDN1000" w'
        = Some (mkResponse 200
                  (Found "YDN1000" (VString "ORD1") "pending_pickup"
                     (VString "A") (VString "X") (VNumber (Number 1000))
                     [Entry.mk "pending_pickup" "t1"
                        (VString "Parcel created and awaiting pickup")]), w').
Proof.
  assert (H1 : truthy (field order "order_id") = true)
    by (vm_compute; reflexivity).
  assert (H2 : truthy (field order "customer_name") = true)
    by (vm_compute; reflexivity).
  assert (H3 : truthy (field order "customer_phone") = true)
    by (vm_compute; reflexivity).
  assert (H4 : truthy (field order "customer_address") = true)
    by (vm_compute; reflexivity).
  assert (H5 : truthy (field order "price") = true)
    by (vm_compute; reflexivity).
  refine (conj H1 (conj H2 (conj H3 (conj H4 (conj H5 _))))).
  exact (creation_round_trip sample_clock order initial H1 H2 H3 H4 H5).
Defined.

Lemma tracked_view_matches_store_witness :
  ∃ p,
    reachable sample_clock mixed
    ∧ stored mixed "YDN1000" = Some p
    ∧ getParcel "YDN1000" mixed
      = Some (mkResponse 200
                (Found "YDN1000" (Parcel.order_id p) (Parcel.status p)
                   (Parcel.customer_name p) (Parcel.customer_address p)
                   (Parcel.cod_amount p) (Parcel.status_history p)), mixed).
Proof.
  assert (H1 : reachable sample_clock mixed)
    by (apply after_reachable; eexists; vm_compute; reflexivity).
  destruct (stored mixed "YDN1000") as [p|] eqn:H2; [|by vm_compute in H2].
  exists p. refine (conj H1 (conj eq_refl _)).
  exact (tracked_view_matches_store sample_clock mixed "YDN1000" p H1 H2).
Defined.

Lemma accepted_update_appends_entry_witness :
  ∃ p,
    parcels five_ticks !! "YDN1000" = Some 0
    ∧ heap five_ticks !! 0 = Some p
    ∧ field (status_body "pending_pickup") "status" = VString "pending_pickup"
    ∧ "pending_pickup" ∈ STATUSES.values
    ∧ ∃ w' p',
        updateStatus sample_clock "YDN1000" (status_body "pending_pickup")
          five_ticks
        = Some (mkResponse 200
                  (Updated "Status updated successfully" "YDN1000"
                     "pending_pickup"), w')
        ∧ stored w' "YDN1000" = Some p'
        ∧ Parcel.status p' = "pending_pickup"
        ∧ Parcel.status_history p'
          = Parcel.status_history p
            ++ [Entry.mk "pending_pickup"
                  (sample_clock (clock_reads five_ticks))
                  (VString "Status updated to pending_pickup")].
Proof.
  assert (H1 : parcels five_ticks !! "YDN1000" = Some 0)
    by (vm_compute; reflexivity).
  destruct (heap five_ticks !! 0) as [p|] eqn:H2; [|by vm_compute in H2].
  assert (H3 : field (status_body "pending_pickup") "status"
               = VString "pending_pickup") by (vm_compute; reflexivity).
  assert (H4 : "pending_pickup" ∈ STATUSES.values)
    by (refine (bool_decide_eq_true_1 (_ ∈ STATUSES.values) _);
        vm_compute; reflexivity).
  exists p. refine (conj H1 (conj eq_refl (conj H3 (conj H4 _)))).
  exact (accepted_update_appends_entry sample_clock five_ticks "YDN1000"
           (status_body "pending_pickup") 0 p "pending_pickup" H1 H2 H3 H4).
Defined.

Lemma transition_notifies_webhook_witness :
  ∃ p,
    requested (PUT_status "YDN1000" (status_body "delivered")) created
    = Some (0, "delivered")
    ∧ heap created !! 0 = Some p
    ∧ ∃ w' p',
        step sample_clock (PUT_status "YDN1000" (status_body "delivered"))
          created = Some w'
        ∧ heap w' !! 0 = Some p'
        ∧ (truthy (Parcel.webhook_url p) = false → outbox w' = outbox created)
        ∧ (truthy (Parcel.webhook_url p) = true →
           ∃ hook,
             outbox w' = outbox created ++ [hook]
             ∧ Webhook.url hook = Parcel.webhook_url p
             ∧ Webhook.event hook = "parcel.status.updated"
             ∧ Webhook.tracking_number (Webhook.payload hook)
               = Parcel.tracking_number p
             ∧ Webhook.order_id (Webhook.payload hook) = Parcel.order_id p
             ∧ Webhook.cod_amount (Webhook.payload hook) = Parcel.cod_amount p
             ∧ Webhook.status (Webhook.payload hook) = "delivered"
             ∧ Webhook.status_history (Webhook.payload hook)
               = Parcel.status_history p'
             ∧ Webhook.delivered_at (Webhook.payload hook)
               = Parcel.delivered_at p').
Proof.
  assert (H1 : requested (PUT_status "YDN1000" (status_body "delivered"))
                 created = Some (0, "delivered"))
    by (vm_compute; reflexivity).
  destruct (heap created !! 0) as [p|] eqn:H2; [|by vm_compute in H2].
  exists p. refine (conj H1 (conj eq_refl _)).
  exact (transition_notifies_webhook sample_clock _ created 0 "delivered" p
           H1 H2).
Defined.

Lemma events_send_at_most_one_webhook_witness :
  step sample_clock (POST_parcels order) initial = Some created
  ∧ (outbox created = outbox initial
     ∨ ∃ hook,
         outbox created = outbox initial ++ [hook]
         ∧ Webhook.event hook = "parcel.status.updated"
         ∧ truthy (Webhook.url hook) = true).
Proof.
  assert (H1 : step sample_clock (POST_parcels order) initial = Some created)
    by (vm_compute; reflexivity).
  refine (conj H1 _).
  exact (events_send_at_most_one_webhook sample_clock _ initial created H1).
Defined.

Lemma listing_shows_stored_parcels_witness :
  reachable sample_clock two_parcels
  ∧ ∃ data,
      listParcels two_parcels
      = Some (mkResponse 200 (Listing (size (parcels two_parcels)) data),
              two_parcels)
      ∧ length data = size (parcels two_parcels)
      ∧ ∀ p, p ∈ data ↔ ∃ tn, stored two_parcels tn = Some p.
Proof.
  assert (H1 : reachable sample_clock two_parcels)
    by (apply after_reachable; eexists; vm_compute; reflexivity).
  refine (conj H1 _).
  exact (listing_shows_stored_parcels sample_clock two_parcels H1).
Defined.

Lemma creation_adds_one_parcel_witness :
  reachable sample_clock created
  ∧ (parcelIdCounter created < MAX_EXACT)%Z
  ∧ truthy (field order "order_id") = true
  ∧ truthy (field order "customer_name") = true
  ∧ truthy (field order "customer_phone") = true
  ∧ truthy (field order "customer_address") = true
  ∧ truthy (field order "price") = true
  ∧ ∃ r w',
      createParcel sample_clock order created = Some (r, w')
      ∧ code r = 201%Z
      ∧ parcels created !! tracking (parcelIdCounter created) = None
      ∧ is_Some (stored w' (tracking (parcelIdCounter created)))
      ∧ size (parcels w') = S (size (parcels created))
      ∧ ∀ tn p, stored created tn = Some p → stored w' tn = Some p.
Proof.
  assert (H0 : reachable sample_clock created)
    by (apply after_reachable; eexists; vm_compute; reflexivity).
  assert (Hc : (parcelIdCounter created < MAX_EXACT)%Z)
    by (vm_compute; reflexivity).
  assert (H1 : truthy (field order "order_id") = true)
    by (vm_compute; reflexivity).
  assert (H2 : truthy (field order "customer_name") = true)
    by (vm_compute; reflexivity).
  assert (H3 : truthy (field order "customer_phone") = true)
    by (vm_compute; reflexivity).
  assert (H4 : truthy (field order "customer_address") = true)
    by (vm_compute; reflexivity).
  assert (H5 : truthy (field order "price") = true)
    by (vm_compute; reflexivity).
  refine (conj H0 (conj Hc (conj H1 (conj H2 (conj H3 (conj H4
            (conj H5 _))))))).
  exact (creation_adds_one_parcel sample_clock order created
           H0 Hc H1 H2 H3 H4 H5).
Defined.

Lemma stored_parcels_are_never_removed_witness :
  reachable sample_clock created
  ∧ step sample_clock (PUT_status "YDN1000" (status_body "delivered")) created
    = Some delivered_once
  ∧ is_Some (stored created "YDN1000")
  ∧ is_Some (stored delivered_once "YDN1000").
Proof.
  assert (H1 : reachable sample_clock created)
    by (apply after_reachable; eexists; vm_compute; reflexivity).
  assert (H2 : step sample_clock
                 (PUT_status "YDN1000" (status_body "delivered")) created
               = Some delivered_once) by (vm_compute; reflexivity).
  assert (H3 : is_Some (stored created "YDN1000"))
    by (eexists; vm_compute; reflexivity).
  refine (conj H1 (conj H2 (conj H3 _))).
  exact (stored_parcels_are_never_removed sample_clock _ created
           delivered_once "YDN1000" H1 H2 H3).
Defined.

Lemma update_leaves_other_parcels_witness :
  ∃ r w',
    reachable sample_clock two_parcels
    ∧ "YDN1001" ≠ "YDN1000"
    ∧ updateStatus sample_clock "YDN1000" (status_body "delivered")
        two_parcels = Some (r, w')
    ∧ stored w' "YDN1001" = stored two_parcels "YDN1001".
Proof.
  assert (H1 : reachable sample_clock two_parcels)
    by (apply after_reachable; eexists; vm_compute; reflexivity).
  assert (H2 : "YDN1001" ≠ "YDN1000") by discriminate.
  destruct (updateStatus sample_clock "YDN1000" (status_body "delivered")
              two_parcels) as [[r w']|] eqn:H3; [|by vm_compute in H3].
  exists r, w'. refine (conj H1 (conj H2 (conj eq_refl _))).
  exact (update_leaves_other_parcels sample_clock two_parcels "YDN1000"
           "YDN1001" _ r w' H1 H2 H3).
Defined.

Lemma event_keeps_parcel_identity_witness :
  ∃ p,
    reachable sample_clock created
    ∧ (parcelIdCounter created < MAX_EXACT)%Z
    ∧ step sample_clock (PUT_status "YDN1000" (status_body "delivered"))
        created = Some delivered_once
    ∧ stored created "YDN1000" = Some p
    ∧ ∃ p',
        stored delivered_once "YDN1000" = Some p'
        ∧ same_identity p p'
        ∧ (p' = p
           ∨ ∃ en, Parcel.status_history p' = Parcel.status_history p ++ [en]
                   ∧ Parcel.status p' = Entry.status en).
Proof.
  assert (H1 : reachable sample_clock created)
    by (apply after_reachable; eexists; vm_compute; reflexivity).
  assert (Hc : (parcelIdCounter created < MAX_EXACT)%Z)
    by (vm_compute; reflexivity).
  assert (H2 : step sample_clock
                 (PUT_status "YDN1000" (status_body "delivered")) created
               = Some delivered_once) by (vm_compute; reflexivity).
  destruct (stored created "YDN1000") as [p|] eqn:H3; [|by vm_compute in H3].
  exists p. refine (conj H1 (conj Hc (conj H2 (conj eq_refl _)))).
  exact (event_keeps_parcel_identity sample_clock _ created delivered_once
           "YDN1000" p H1 Hc H2 H3).
Defined.

Lemma stored_parcel_is_well_formed_witness :
  ∃ p,
    reachable sample_clock two_parcels
    ∧ stored two_parcels "YDN1001" = Some p
    ∧ Parcel.tracking_number p = "YDN1001"
    ∧ Parcel.cod_amount p = Parcel.price p
    ∧ truthy (Parcel.order_id p) = true
    ∧ truthy (Parcel.customer_name p) = true
    ∧ truthy (Parcel.customer_phone p) = true
    ∧ truthy (Parcel.customer_address p) = true
    ∧ truthy (Parcel.price p) = true.
Proof.
  assert (H1 : reachable sample_clock two_parcels)
    by (apply after_reachable; eexists; vm_compute; reflexivity).
  destruct (stored two_parcels "YDN1001") as [p|] eqn:H2;
    [|by vm_compute in H2].
  exists p. refine (conj H1 (conj eq_refl _)).
  exact (stored_parcel_is_well_formed sample_clock two_parcels "YDN1001" p
           H1 H2).
Defined.

Lemma status_stays_in_enum_witness :
  ∃ p,
    reachable sample_clock mixed
    ∧ stored mixed "YDN1000" = Some p
    ∧ Parcel.status p ∈ STATUSES.values
    ∧ ∀ en, en ∈ Parcel.status_history p →
            Entry.status en ∈ STATUSES.values.
Proof.
  assert (H1 : reachable sample_clock mixed)
    by (apply after_reachable; eexists; vm_compute; reflexivity).
  destruct (stored mixed "YDN1000") as [p|] eqn:H2; [|by vm_compute in H2].
  exists p. refine (conj H1 (conj eq_refl _)).
  exact (status_stays_in_enum sample_clock mixed "YDN1000" p H1 H2).
Defined.

Lemma delivered_at_iff_delivered_entry_witness :
  ∃ p,
    reachable sample_clock delivered_then_simulated
    ∧ stored delivered_then_simulated "YDN1000" = Some p
    ∧ (is_Some (Parcel.delivered_at p)
       ↔ STATUSES.DELIVERED ∈ statuses (Parcel.status_history p)).
Proof.
  assert (H1 : reachable sample_clock delivered_then_simulated)
    by (apply after_reachable; eexists; vm_compute; reflexivity).
  destruct (stored delivered_then_simulated "YDN1000") as [p|] eqn:H2;
    [|by vm_compute in H2].
  exists p. refine (conj H1 (conj eq_refl _)).
  exact (delivered_at_iff_delivered_entry sample_clock
           delivered_then_simulated "YDN1000" p H1 H2).
Defined.

Lemma default_scenario_history_witness :
  ∃ p,
    parcels created !! "YDN1000" = Some 0
    ∧ heap created !! 0 = Some p
    ∧ field default_scenario "scenario" ≠ VString "failed"
    ∧ converts_to_string (field default_scenario "speed") = true
    ∧ ∃ r w0,
        simulate "YDN1000" default_scenario created = Some (r, w0)
        ∧ ∀ n w',
            interleaved sample_clock (leaves 0) (next_timer created) n w0 w' →
            n ≤ 6
            ∧ (n < 6 →
               is_Some (step sample_clock (Tick (next_timer created)) w'))
            ∧ ∃ p',
                heap w' !! 0 = Some p'
                ∧ statuses (Parcel.status_history p')
                  = statuses (Parcel.status_history p)
                    ++ take n [STATUSES.COLLECTED; STATUSES.IN_TRANSIT;
                               STATUSES.OUT_FOR_DELIVERY; STATUSES.DELIVERED;
                               STATUSES.COMPLETED]
                ∧ (n < 4 → Parcel.delivered_at p' = Parcel.delivered_at p)
                ∧ (4 ≤ n → is_Some (Parcel.delivered_at p'))
                ∧ (5 ≤ n → Parcel.status p' = STATUSES.COMPLETED).
Proof.
  assert (H1 : parcels created !! "YDN1000" = Some 0)
    by (vm_compute; reflexivity).
  destruct (heap created !! 0) as [p|] eqn:H2; [|by vm_compute in H2].
  assert (H3 : field default_scenario "scenario" ≠ VString "failed")
    by (vm_compute; discriminate).
  assert (H4 : converts_to_string (field default_scenario "speed") = true)
    by (vm_compute; reflexivity).
  exists p. refine (conj H1 (conj eq_refl (conj H3 (conj H4 _)))).
  exact (default_scenario_history sample_clock created "YDN1000"
           default_scenario 0 p H1 H2 H3 H4).
Defined.

Lemma simulate_arms_an_independent_timer_witness :
  reachable sample_clock simulation_started
  ∧ parcels simulation_started !! "YDN1000" = Some 0
  ∧ (converts_to_string (field default_scenario "speed") = true →
     ∃ w',
       simulate "YDN1000" default_scenario simulation_started
       = Some (mkResponse 200
                 (SimulationStarted "Simulation started for YDN1000"
                    "YDN1000" (field default_scenario "speed")), w')
       ∧ timers simulation_started !! next_timer simulation_started = None
       ∧ timers w' !! next_timer simulation_started
         = Some (Timer.mk "YDN1000" 0
                   (if is_failed_scenario (field default_scenario "scenario")
                    then flow_failed else flow_default) 0)
       ∧ (∀ id t, timers simulation_started !! id = Some t →
                  timers w' !! id = Some t)
       ∧ heap w' = heap simulation_started
       ∧ parcels w' = parcels simulation_started
       ∧ outbox w' = outbox simulation_started
       ∧ clock_reads w' = clock_reads simulation_started)
  ∧ (converts_to_string (field default_scenario "speed") = false →
     simulate "YDN1000" default_scenario simulation_started
     = Some (mkResponse 500 ServerError, simulation_started)).
Proof.
  assert (H1 : reachable sample_clock simulation_started)
    by (apply after_reachable; eexists; vm_compute; reflexivity).
  assert (H2 : parcels simulation_started !! "YDN1000" = Some 0)
    by (vm_compute; reflexivity).
  refine (conj H1 (conj H2 _)).
  exact (simulate_arms_an_independent_timer sample_clock simulation_started
           "YDN1000" default_scenario 0 H1 H2).
Defined.

(** The two answers of the simulate handler for a stored parcel, computed:
    a speed that is an object with an own "toString", alone or inside an
    array, has no property key, the answer is 500 and the state is as it was;
    an array of plain values converts, and the run is started. *)
Example simulate_with_unconvertible_speed :
  converts_to_string (field unconvertible_speed "speed") = false
  ∧ simulate "YDN1000" unconvertible_speed simulation_started
    = Some (mkResponse 500 ServerError, simulation_started)
  ∧ simulate "YDN1000"
      {[ "speed" := VArray [VString "fast"; field unconvertible_speed "speed"] ]}
      simulation_started
    = Some (mkResponse 500 ServerError, simulation_started)
  ∧ code ∘ fst
      <$> simulate "YDN1000"
            {[ "speed" := VArray [VString "fast"; VNull; VObject []] ]}
            simulation_started
    = Some 200%Z.
Proof. vm_compute. done. Qed.

Lemma tracking_numbers_are_consecutive_witness :
  reachable sample_clock two_parcels
  ∧ (parcelIdCounter two_parcels < MAX_EXACT)%Z
  ∧ (1000 ≤ parcelIdCounter two_parcels)%Z
  ∧ ∀ tn, is_Some (stored two_parcels tn)
          ↔ ∃ k, (1000 ≤ k < parcelIdCounter two_parcels)%Z
                 ∧ tn = "YDN" +:+ Number_toString k.
Proof.
  assert (H1 : reachable sample_clock two_parcels)
    by (apply after_reachable; eexists; vm_compute; reflexivity).
  assert (H2 : (parcelIdCounter two_parcels < MAX_EXACT)%Z)
    by (vm_compute; reflexivity).
  refine (conj H1 (conj H2 _)).
  exact (tracking_numbers_are_consecutive sample_clock two_parcels H1 H2).
Defined.

Lemma simulation_notifies_each_status_witness :
  ∃ p,
    parcels created !! "YDN1000" = Some 0
    ∧ heap created !! 0 = Some p
    ∧ converts_to_string (field failed_scenario "speed") = true
    ∧ ∃ r w0,
        simulate "YDN1000" failed_scenario created = Some (r, w0)
        ∧ outbox w0 = outbox created
        ∧ ∀ n, n ≤ 6 →
            ∃ w' hooks,
              run sample_clock (replicate n (Tick (next_timer created))) w0
              = Some w'
              ∧ outbox w' = outbox created ++ hooks
              ∧ reported hooks
                = (if truthy (Parcel.webhook_url p)
                   then take n
                          (if is_failed_scenario
                                (field failed_scenario "scenario")
                           then flow_failed else flow_default)
                   else [])
              ∧ ∀ h, h ∈ hooks → Webhook.url h = Parcel.webhook_url p.
Proof.
  assert (H1 : parcels created !! "YDN1000" = Some 0)
    by (vm_compute; reflexivity).
  destruct (heap created !! 0) as [p|] eqn:H2; [|by vm_compute in H2].
  assert (H3 : converts_to_string (field failed_scenario "speed") = true)
    by (vm_compute; reflexivity).
  exists p. refine (conj H1 (conj eq_refl (conj H3 _))).
  exact (simulation_notifies_each_status sample_clock created "YDN1000"
           failed_scenario 0 p H1 H2 H3).
Defined.

(** The six callbacks of that run, computed: five webhooks after the one of
    the creation, in the order of the sequence. *)
Example failed_run_webhooks :
  reported
    (outbox (after [POST_parcels order;
                    POST_simulate "YDN1000" failed_scenario;
                    Tick 0; Tick 0; Tick 0; Tick 0; Tick 0; Tick 0]))
  = ["pending_pickup"; "collected"; "in_transit"; "out_for_delivery";
     "failed_delivery"; "returned"].
Proof. vm_compute. reflexivity. Qed.

Lemma update_outside_enum_rejected_witness :
  parcels created !! "YDN1000" = Some 0
  ∧ (∀ s, field (status_body "DELIVERED") "status" = VString s →
          s ∉ STATUSES.values)
  ∧ updateStatus sample_clock "YDN1000" (status_body "DELIVERED") created
    = Some (mkResponse 400 (Failure "Invalid status"), created).
Proof.
  assert (H1 : parcels created !! "YDN1000" = Some 0)
    by (vm_compute; reflexivity).
  assert (H2 : ∀ s, field (status_body "DELIVERED") "status" = VString s →
                    s ∉ STATUSES.values).
  { intros s Hs. vm_compute in Hs. injection Hs as <-.
    refine (bool_decide_eq_true_1 ("DELIVERED" ∉ STATUSES.values) _).
    vm_compute. reflexivity. }
  refine (conj H1 (conj H2 _)).
  exact (update_outside_enum_rejected sample_clock created "YDN1000"
           (status_body "DELIVERED") 0 H1 H2).
Defined.
